(** * auto_build.py: the ROS workspace auto-build script

    A shallow embedding of [src/auto_build.py].  The script is boundary
    glue: it probes the file system, loads a YAML file, spawns external
    commands and writes log records.  Every effect is made explicit:

    - what the outside world answers (which files exist, their mode, what
      the YAML loader yields, how each subprocess ends) is a [world];
    - what the script does to the outside world is the list of [event]s
      it emits, in program order, plus the file modes it changes;
    - Python exceptions, [sys.exit] included, are the [Raise] results of a
      small state-and-exception monad.

    The run starts where [parser.parse_args()] has returned.  An
    interrupt from the keyboard is taken where the script spends its time,
    in the wait for a child process.  Probing a file does not fail;
    changing its mode does when the world refuses it. *)

From stdpp Require Import base option list strings gmap.
From Stdlib Require Import ZArith Lia.

Local Open Scope string_scope.
Local Open Scope Z_scope.

(** ** Values loaded by [yaml.safe_load]

    The JSON-like core of what the safe loader can build.  A mapping is a
    Python [dict]; only its string keys matter to
    [config.get("official-packages", [])]. *)

#[local] Set Warnings "-register-all".

Inductive yaml : Type :=
| YNull
| YBool (b : bool)
| YInt (z : Z)
| YStr (s : string)
| YSeq (l : list yaml)
| YMap (m : gmap string yaml).

(** The number of characters of a string, as Python counts them: the
    bytes of its UTF-8 text that do not continue a character (the bytes
    [10xxxxxx] do). *)
Fixpoint py_str_len (s : string) : nat :=
  match s with
  | EmptyString => 0%nat
  | String (Ascii.Ascii _ _ _ _ _ _ b6 b7) s' =>
      if b7 && negb b6 then py_str_len s' else S (py_str_len s')
  end.

(** [len(v)]: [None] stands for the [TypeError] of an unsized object. *)
Definition py_len (v : yaml) : option nat :=
  match v with
  | YStr s => Some (py_str_len s)
  | YSeq l => Some (length l)
  | YMap m => Some (size m)
  | YNull | YBool _ | YInt _ => None
  end.

(** Truth value of [v], as tested by [if not official_packages]. *)
Definition py_truthy (v : yaml) : bool :=
  match v with
  | YNull => false
  | YBool b => b
  | YInt z => negb (z =? 0)
  | YStr s => negb (Nat.eqb (String.length s) 0)
  | YSeq l => negb (Nat.eqb (length l) 0)
  | YMap m => negb (Nat.eqb (size m) 0)
  end.

(** [config.get(key, default)]: [None] stands for the [AttributeError]
    of an object that has no [get] (anything but a mapping). *)
Definition py_get (config : yaml) (key : string) (dflt : yaml) : option yaml :=
  match config with
  | YMap m => Some (match m !! key with Some v => v | None => dflt end)
  | _ => None
  end.

(** An argument vector handed to [subprocess.run] must hold strings:
    [None] stands for the [TypeError] raised before anything is spawned. *)
Fixpoint py_argv (l : list yaml) : option (list string) :=
  match l with
  | [] => Some []
  | YStr s :: l' =>
      match py_argv l' with Some a => Some (s :: a) | None => None end
  | _ :: _ => None
  end.

(** ** Exceptions *)

Inductive exn : Type :=
| CalledProcessError (argv : list string) (status : Z)
| YAMLError
| OSError
| AttributeError
| TypeError
| KeyboardInterrupt
| SystemExit (code : Z).

(** [except Exception] catches every exception class but the two that
    derive from [BaseException] only. *)
Definition is_Exception (e : exn) : bool :=
  match e with
  | KeyboardInterrupt | SystemExit _ => false
  | _ => true
  end.

Definition is_CalledProcessError (e : exn) : bool :=
  match e with CalledProcessError _ _ => true | _ => false end.

Definition is_YAMLError (e : exn) : bool :=
  match e with YAMLError => true | _ => false end.

Definition is_KeyboardInterrupt (e : exn) : bool :=
  match e with KeyboardInterrupt => true | _ => false end.

(** ** What the script does: events *)

Inductive level : Type := INFO | WARNING | ERROR.

(** A log message is its literal text with the interpolated values kept
    apart (an f-string's [{...}] fields). *)
Inductive piece : Type :=
| Txt (s : string)
| Num (n : nat)
| Pth (p : string)
| Exc (e : exn).

Inductive event : Type :=
| Log (lvl : level) (msg : list piece)
| FsExists (path : string)
| FsStat (path : string)
| FsChmod (path : string) (mode : Z)
| FsOpen (path : string)
| Run (argv : list string) (cwd : option string).

(** ** What the outside answers: the world *)

Inductive proc_outcome : Type :=
| Exited (status : Z)      (* the child ran and returned this status *)
| Interrupted              (* Ctrl-C while waiting for the child *)
| SpawnFailed.             (* the program could not be started *)

Inductive load_outcome : Type :=
| Parsed (v : yaml)        (* [yaml.safe_load] returned [v] *)
| Unparsable               (* it raised [yaml.YAMLError] *)
| Unreadable.              (* [open] or the read raised [OSError] *)

(** Each command line is spawned at most once in a run, so the way a
    child ends is a function of its arguments and working directory. *)
Record world : Type := {
  cwd : string;                                          (* [Path.cwd()] *)
  exists_ : string -> bool;                              (* [Path.exists] *)
  st_mode : string -> Z;                                 (* [Path.stat().st_mode] *)
  load : string -> load_outcome;                         (* [open] + [yaml.safe_load] *)
  may_chmod : string -> bool;                            (* may the caller [chmod] it? *)
  spawn : list string -> option string -> proc_outcome;  (* the child of [subprocess.run] *)
}.

(** ** The monad: file modes in, result, events and file modes out *)

Inductive result (A : Type) : Type :=
| Ret (a : A)
| Raise (e : exn).
Arguments Ret {A} a.
Arguments Raise {A} e.

(** Modes changed by the script so far, over the world's initial ones. *)
Abbreviation modes := (gmap string Z).

Record outcome (A : Type) : Type := Outcome {
  res : result A;
  evs : list event;
  fs : modes;
}.
Arguments Outcome {A} res evs fs.
Arguments res {A} o.
Arguments evs {A} o.
Arguments fs {A} o.

Definition M (A : Type) : Type := modes -> outcome A.

Definition ret {A} (a : A) : M A := fun s => Outcome (Ret a) [] s.

Definition raise {A} (e : exn) : M A := fun s => Outcome (Raise e) [] s.

(** [pre t o]: the events [t] happened before those of [o]. *)
Definition pre {A} (t : list event) (o : outcome A) : outcome A :=
  match o with
  | Outcome r t' s' => Outcome r (t ++ t') s'
  end.

Definition bind {A B} (m : M A) (k : A -> M B) : M B := fun s =>
  match m s with
  | Outcome (Ret a) t s' => pre t (k a s')
  | Outcome (Raise e) t s' => Outcome (Raise e) t s'
  end.

Definition emit (e : event) : M unit := fun s => Outcome (Ret tt) [e] s.

(** One [except <class> as e: handler] clause: the class test and the
    handler. *)
Definition clause (A : Type) : Type := ((exn -> bool) * (exn -> M A))%type.

(** The first clause whose class matches, as Python selects it. *)
Fixpoint select {A} (cs : list (clause A)) (e : exn) : option (M A) :=
  match cs with
  | [] => None
  | (handles, handler) :: cs' => if handles e then Some (handler e) else select cs' e
  end.

(** [try: body / except ...]: an exception raised by a handler is not
    caught by a later clause of the same statement. *)
Definition try_except {A} (body : M A) (cs : list (clause A)) : M A := fun s =>
  match body s with
  | Outcome (Ret a) t s' => Outcome (Ret a) t s'
  | Outcome (Raise e) t s' =>
      match select cs e with
      | Some h => pre t (h s')
      | None => Outcome (Raise e) t s'
      end
  end.

Notation "'let!' x ':=' m 'in' k" := (bind m (fun x => k))
  (at level 10, x name, m at level 100, k at level 200, only parsing).
Notation "m >> k" := (bind m (fun _ => k))
  (at level 90, right associativity, only parsing).

(** ** Primitive operations *)

Definition S_IXUGO : Z := 73.      (* 0o111: the three execute bits *)
Definition S_IALLUGO : Z := 4095.  (* 0o7777: the bits [chmod] sets *)
Definition MODE_755 : Z := 493.    (* 0o755 *)

Definition logger (lvl : level) (msg : list piece) : M unit := emit (Log lvl msg).

(** The mode of [path] now: as last changed, else as the world has it. *)
Definition mode_of (w : world) (s : modes) (path : string) : Z :=
  match s !! path with Some m => m | None => st_mode w path end.

(** [chmod] replaces the permission bits and keeps the file-type bits. *)
Definition chmod_mode (old perm : Z) : Z := Z.lor (Z.ldiff old S_IALLUGO) perm.

(** [workspace_dir / name] of pathlib.  A path is the text pathlib
    prints for it, so the workspace directory is taken in pathlib's
    normal form (no trailing or doubled slash, no [.] component); two
    texts are taken to name two files. *)
Definition path_join (dir name : string) : string := dir +:+ "/" +:+ name.

Section Script.

Variable w : world.

Definition path_exists (path : string) : M bool :=
  emit (FsExists path) >> ret (exists_ w path).

Definition path_stat (path : string) : M Z := fun s =>
  Outcome (Ret (mode_of w s path)) [FsStat path] s.

(** [Path.chmod]: refused (a file of another owner, a read-only file
    system), it raises a [PermissionError] or another [OSError] and
    changes nothing. *)
Definition path_chmod (path : string) (perm : Z) : M unit := fun s =>
  if may_chmod w path
  then Outcome (Ret tt) [FsChmod path perm]
         (<[path := chmod_mode (mode_of w s path) perm]> s)
  else Outcome (Raise OSError) [FsChmod path perm] s.

(** [subprocess.run(argv, check=True, cwd=cwd)]. *)
Definition subprocess_run (argv : list string) (cwd : option string) : M unit :=
  emit (Run argv cwd) >>
  match spawn w argv cwd with
  | Exited status =>
      if status =? 0 then ret tt else raise (CalledProcessError argv status)
  | Interrupted => raise KeyboardInterrupt
  | SpawnFailed => raise OSError
  end.

(** The same on a list built from loaded values. *)
Definition subprocess_run_values (cmd : list yaml) (cwd : option string) : M unit :=
  match py_argv cmd with
  | Some argv => subprocess_run argv cwd
  | None => raise TypeError
  end.

(** ** class ROSWorkspaceManager *)

Record ROSWorkspaceManager : Type := {
  workspace_dir : string;
  packages_file : string;
  src_dir : string;
  prepare_script : string;
}.

(** [__init__]: an absent or empty argument selects the current directory. *)
Definition init (workspace : option string) : ROSWorkspaceManager :=
  let dir := match workspace with
             | Some d => if String.eqb d "" then cwd w else d
             | None => cwd w
             end in
  {| workspace_dir := dir;
     packages_file := path_join dir "ros-config.yml";
     src_dir := path_join dir "src";
     prepare_script := path_join dir "prepare.sh" |}.

Variable self : ROSWorkspaceManager.

Definition env_file : string := path_join (workspace_dir self) ".env".

Definition check_environment : M bool :=
  let! found := path_exists (prepare_script self) in
  if negb found then
    logger ERROR [Txt "prepare.sh not found! This script is required for environment setup."] >>
    ret false
  else
    let! mode := path_stat (prepare_script self) in
    (if Z.land mode S_IXUGO =? 0 then
       logger INFO [Txt "Making prepare.sh executable..."] >>
       path_chmod (prepare_script self) MODE_755
     else ret tt) >>
    let! env_found := path_exists env_file in
    (if negb env_found then
       logger WARNING [Txt ".env file not found!"] >>
       logger INFO [Txt "Please copy .templates/example.env to .env and configure it."] >>
       logger INFO [Txt "Using default environment from prepare.sh..."]
     else
       logger INFO [Txt "Found .env file for environment configuration"]) >>
    ret true.

Definition read_packages_config : M yaml :=
  let! found := path_exists (packages_file self) in
  if negb found then
    logger ERROR [Txt "Error: "; Pth (packages_file self); Txt " not found!"] >>
    raise (SystemExit 1)
  else
    try_except
      (emit (FsOpen (packages_file self)) >>
       match load w (packages_file self) with
       | Unreadable => raise OSError
       | Unparsable => raise YAMLError
       | Parsed config =>
           match py_get config "official-packages" (YSeq []) with
           | None => raise AttributeError
           | Some official_packages =>
               match py_len official_packages with
               | None => raise TypeError
               | Some n =>
                   logger INFO [Txt "Loaded "; Num n; Txt " official packages from config"] >>
                   ret official_packages
               end
           end
       end)
      [ (is_YAMLError, fun e =>
           logger ERROR [Txt "Error parsing "; Pth (packages_file self); Txt ": "; Exc e] >>
           raise (SystemExit 1));
        (is_Exception, fun e =>
           logger ERROR [Txt "Error reading config file: "; Exc e] >>
           raise (SystemExit 1)) ].

Definition rosdep_update : list string :=
  ["bash"; "-c"; "source prepare.sh && rosdep update"].
Definition rosdep_install : list string :=
  ["bash"; "-c"; "source prepare.sh && rosdep install --from-paths src --ignore-src -r -y"].
Definition colcon_build : list string :=
  ["bash"; "-c"; "source prepare.sh && colcon build --symlink-install"].

Definition build_ws : M bool :=
  logger INFO [Txt "Installing workspace dependencies..."] >>
  try_except
    (subprocess_run rosdep_update (Some (workspace_dir self)) >>
     subprocess_run rosdep_install (Some (workspace_dir self)) >>
     logger INFO [Txt "Dependencies installed successfully"])
    [ (is_CalledProcessError, fun e =>
         logger WARNING [Txt "Failed to install some dependencies: "; Exc e]) ] >>
  logger INFO [Txt "Building ROS workspace..."] >>
  try_except
    (subprocess_run colcon_build (Some (workspace_dir self)) >>
     logger INFO [Txt "Workspace built successfully"] >>
     ret true)
    [ (is_CalledProcessError, fun e =>
         logger ERROR [Txt "Failed to build workspace: "; Exc e] >>
         ret false) ].

Definition apt_update : list string := ["sudo"; "apt"; "update"].
Definition apt_install : list string := ["sudo"; "apt"; "install"; "-y"].

(** [["sudo", "apt", "install", "-y"] + official_packages]: a list can
    only be concatenated with a list. *)
Definition install_cmd (official_packages : yaml) : option (list yaml) :=
  match official_packages with
  | YSeq l => Some (map YStr apt_install ++ l)%list
  | _ => None
  end.

Definition install_official_packages (official_packages : yaml) : M bool :=
  if negb (py_truthy official_packages) then
    logger INFO [Txt "No official packages to install"] >>
    ret true
  else
    match py_len official_packages with
    | None => raise TypeError
    | Some n =>
        logger INFO [Txt "Installing "; Num n; Txt " official packages..."] >>
        try_except
          (subprocess_run apt_update None >>
           match install_cmd official_packages with
           | None => raise TypeError
           | Some cmd =>
               subprocess_run_values cmd None >>
               logger INFO [Txt "Official packages installed successfully"] >>
               ret true
           end)
          [ (is_CalledProcessError, fun e =>
               logger ERROR [Txt "Failed to install official packages: "; Exc e] >>
               ret false) ]
    end.

(** The value returned is Python's: [Some false] is [False], [None] is
    the [None] of a function that ends without a [return]. *)
Definition setup_workspace : M (option bool) :=
  logger INFO [Txt "Setting up ROS workspace..."] >>
  let! ok := check_environment in
  if negb ok then
    logger ERROR [Txt "Environment check failed!"] >>
    ret (Some false)
  else
    let! official_packages := read_packages_config in
    install_official_packages official_packages >>
    build_ws >>
    logger INFO [Txt "Workspace setup completed successfully!"] >>
    logger INFO [Txt "Custom packages are managed via git submodules"] >>
    logger INFO [Txt "To use the workspace, run: source prepare.sh"] >>
    ret None.

End Script.

(** ** main

    [workspace] is the value of the [--workspace] option as
    [parser.parse_args()] returned it. *)
Definition main (w : world) (workspace : option string) : M unit :=
  try_except
    (let manager := init w workspace in
     setup_workspace w manager >> ret tt)
    [ (is_KeyboardInterrupt, fun _ =>
         logger INFO [Txt "Operation cancelled by user"] >>
         raise (SystemExit 1));
      (is_Exception, fun e =>
         logger ERROR [Txt "Unexpected error: "; Exc e] >>
         raise (SystemExit 1)) ].

(** The exit status the interpreter gives the process: 0 when [main]
    returns, the argument of [sys.exit], 130 for an uncaught interrupt
    and 1 for any other uncaught exception. *)
Definition exit_status (r : result unit) : Z :=
  match r with
  | Ret _ => 0
  | Raise (SystemExit code) => code
  | Raise KeyboardInterrupt => 130
  | Raise _ => 1
  end.

(** A whole run of the script, from a file system it has not touched. *)
Definition run_script (w : world) (workspace : option string) : outcome unit :=
  main w workspace ∅.

Definition exit_code (w : world) (workspace : option string) : Z :=
  exit_status (res (run_script w workspace)).

(** ** Observing a trace *)

(** The subprocess invocations of a trace, in order. *)
Definition runs (t : list event) : list (list string * option string) :=
  omap (fun e => match e with Run argv cwd => Some (argv, cwd) | _ => None end) t.

(** Is [argv] an invocation of the system package manager? *)
Definition is_apt (argv : list string) : bool :=
  match argv with
  | prog :: tool :: _ => String.eqb prog "sudo" && String.eqb tool "apt"
  | _ => false
  end.

(** The package-manager invocations of a trace, in order. *)
Definition apt_runs (t : list event) : list (list string) :=
  filter (fun argv => is_apt argv = true) (map fst (runs t)).

(** The files opened for reading. *)
Definition opens (t : list event) : list string :=
  omap (fun e => match e with FsOpen p => Some p | _ => None end) t.

(** The calls of [chmod], granted or refused. *)
Definition chmods (t : list event) : list (string * Z) :=
  omap (fun e => match e with FsChmod p m => Some (p, m) | _ => None end) t.

(** The messages logged at a level. *)
Definition logs (lvl : level) (t : list event) : list (list piece) :=
  omap (fun e => match e, lvl with
                 | Log INFO msg, INFO | Log WARNING msg, WARNING
                 | Log ERROR msg, ERROR => Some msg
                 | _, _ => None
                 end) t.

Definition logged (lvl : level) (t : list event) : Prop := logs lvl t <> [].

(** The command ran to its end, with whatever status. *)
Definition exits (w : world) (argv : list string) (cwd : option string) : Prop :=
  exists status, spawn w argv cwd = Exited status.

(** The environment check of a run passes: [check_environment] returns
    [True].  That is the case exactly when [prepare.sh] exists and either
    has an execute bit or may have its mode changed. *)
Definition passes_check (w : world) (self : ROSWorkspaceManager) : Prop :=
  res (check_environment w self ∅) = Ret true.

(** [ros-config.yml] is there and is a mapping whose [official-packages]
    entry is the list of names [pkgs]. *)
Definition config_lists (w : world) (self : ROSWorkspaceManager) (pkgs : list string) : Prop :=
  exists_ w (packages_file self) = true /\
  exists m, load w (packages_file self) = Parsed (YMap m) /\
            m !! "official-packages" = Some (YSeq (map YStr pkgs)).

(** The package manager is invoked for one update and then for one
    install of exactly [pkgs], and for nothing else. *)
Definition installs_once (pkgs : list string) (t : list event) : Prop :=
  apt_runs t = [apt_update; (apt_install ++ pkgs)%list].

(** The installer step is skipped and the run goes on to the build step:
    no package-manager invocation, and the first subprocess of the run is
    the [rosdep update] that opens [build_ws]. *)
Definition skips_to_build (self : ROSWorkspaceManager) (t : list event) : Prop :=
  apt_runs t = [] /\
  exists rest, runs t = (rosdep_update, Some (workspace_dir self)) :: rest.

(** The run ends with exit status 1, having logged an error and spawned
    nothing. *)
Definition fatal_preflight (o : outcome unit) : Prop :=
  exit_status (res o) = 1 /\ logged ERROR (evs o) /\ runs (evs o) = [].

(** Is any execute bit set? *)
Definition executable (mode : Z) : Prop := Z.land mode S_IXUGO <> 0.

(** ** Concrete workspaces

    Small worlds on which the script is run below.  The workspace is the
    current directory [/ws]; [present] lists the files that exist,
    [mode] is the mode every file has, [config] is what loading
    [ros-config.yml] yields, and [failing] gives the commands that end
    with a nonzero status (every other command returns 0).  The caller
    may change the mode of every file. *)

Fixpoint status_of (failing : list (list string * Z)) (argv : list string) : Z :=
  match failing with
  | [] => 0
  | (a, status) :: rest => if bool_decide (a = argv) then status else status_of rest argv
  end.

Definition mk_world (present : list string) (mode : Z) (config : load_outcome)
    (failing : list (list string * Z)) : world :=
  {| cwd := "/ws";
     exists_ := fun p => bool_decide (p ∈ present);
     st_mode := fun _ => mode;
     load := fun _ => config;
     may_chmod := fun _ => true;
     spawn := fun argv _ => Exited (status_of failing argv) |}.

Definition all_files : list string :=
  ["/ws/prepare.sh"; "/ws/.env"; "/ws/ros-config.yml"].

Definition REG_755 : Z := 33261.  (* 0o100755: a regular file, rwxr-xr-x *)
Definition REG_644 : Z := 33188.  (* 0o100644: a regular file, rw-r--r-- *)

(** [official-packages: [a, b]] *)
Definition config_ab : yaml :=
  YMap {[ "official-packages" := YSeq [YStr "a"; YStr "b"] ]}.

(** [official-packages: []] *)
Definition config_empty : yaml :=
  YMap {[ "official-packages" := YSeq [] ]}.

(** [custom-packages: [x]]: a mapping without the key. *)
Definition config_no_key : yaml :=
  YMap {[ "custom-packages" := YSeq [YStr "x"] ]}.

Definition apt_install_ab : list string := (apt_install ++ ["a"; "b"])%list.

(** Everything in place, every command succeeds. *)
Definition w_healthy : world := mk_world all_files REG_755 (Parsed config_ab) [].

(** As [w_healthy], but [colcon build] returns status 2. *)
Definition w_build_fails : world :=
  mk_world all_files REG_755 (Parsed config_ab) [(colcon_build, 2)].

(** As [w_healthy], but [rosdep update] returns status 1. *)
Definition w_sync_fails : world :=
  mk_world all_files REG_755 (Parsed config_ab) [(rosdep_update, 1)].

(** As [w_healthy], but [apt update] returns status 100. *)
Definition w_update_fails : world :=
  mk_world all_files REG_755 (Parsed config_ab) [(apt_update, 100)].

(** An empty directory. *)
Definition w_bare : world := mk_world [] REG_644 Unreadable [].

(** [prepare.sh] and [.env] but no [ros-config.yml]. *)
Definition w_no_config : world :=
  mk_world ["/ws/prepare.sh"; "/ws/.env"] REG_755 Unreadable [].

(** A [ros-config.yml] that is not YAML. *)
Definition w_bad_yaml : world := mk_world all_files REG_755 Unparsable [].

(** An empty package list. *)
Definition w_empty_list : world := mk_world all_files REG_755 (Parsed config_empty) [].

(** A mapping without [official-packages]. *)
Definition w_no_key : world := mk_world all_files REG_755 (Parsed config_no_key) [].

(** Only a [ros-config.yml], listing [a] and [b]. *)
Definition w_lone_ab : world :=
  mk_world ["/ws/ros-config.yml"] REG_644 (Parsed config_ab) [].

(** Only a [ros-config.yml], with an empty package list. *)
Definition w_lone_empty_list : world :=
  mk_world ["/ws/ros-config.yml"] REG_644 (Parsed config_empty) [].

(** Only a [ros-config.yml], a mapping without [official-packages]. *)
Definition w_lone_no_key : world :=
  mk_world ["/ws/ros-config.yml"] REG_644 (Parsed config_no_key) [].

(** [prepare.sh] without any execute bit, and no [.env]. *)
Definition w_not_exec : world :=
  mk_world ["/ws/prepare.sh"; "/ws/ros-config.yml"] REG_644 (Parsed config_ab) [].


(** ** Further observers

    Used for the properties of the script beyond the claims of the
    spec. *)

(** A child ending in [bad] makes [subprocess.run] raise [e], nothing
    catches it and nothing is spawned after it. *)
Definition halts_at {A} (w : world) (bad : proc_outcome) (e : exn) (o : outcome A) : Prop :=
  forall argv cwd,
    (argv, cwd) ∈ runs (evs o) -> spawn w argv cwd = bad ->
    res o = Raise e /\ last (runs (evs o)) = Some (argv, cwd).

(** [sys.exit] is only ever called with 1 and after an error was logged. *)
Definition exits_loudly {A} (o : outcome A) : Prop :=
  forall code, res o = Raise (SystemExit code) -> code = 1 /\ logged ERROR (evs o).

(** The names of a loaded package list, when it is a list of strings. *)
Definition strings_of (v : yaml) : option (list string) :=
  match v with
  | YSeq l => py_argv l
  | _ => None
  end.

(** What [read_packages_config] lets through: a mapping whose
    [official-packages] entry, [[]] when absent, has a length. *)
Definition accepts (o : load_outcome) : bool :=
  match o with
  | Parsed config =>
      match py_get config "official-packages" (YSeq []) with
      | Some v => match py_len v with Some _ => true | None => false end
      | None => false
      end
  | Unparsable | Unreadable => false
  end.

(** Is [argv] a [bash -c] command line that sources [prepare.sh] first? *)
Definition sources_prepare (argv : list string) : bool :=
  match argv with
  | [prog; flag; script] =>
      String.eqb prog "bash" && String.eqb flag "-c"
      && String.prefix "source prepare.sh && " script
  | _ => false
  end.

(** Is the mode of [path] at the start of the run executable already? *)
Definition executable_before (w : world) (path : string) : bool :=
  negb (Z.land (st_mode w path) S_IXUGO =? 0).

(** ** Further workspaces *)

Fixpoint ending_of (endings : list (list string * proc_outcome)) (argv : list string)
    : proc_outcome :=
  match endings with
  | [] => Exited 0
  | (a, ending) :: rest => if bool_decide (a = argv) then ending else ending_of rest argv
  end.

(** As [mk_world], with the commands that do not end with status 0
    given by the way they end. *)
Definition mk_world_ending (present : list string) (mode : Z) (config : load_outcome)
    (endings : list (list string * proc_outcome)) : world :=
  {| cwd := "/ws";
     exists_ := fun p => bool_decide (p ∈ present);
     st_mode := fun _ => mode;
     load := fun _ => config;
     may_chmod := fun _ => true;
     spawn := fun argv _ => ending_of endings argv |}.

(** As [w_healthy], but Ctrl-C is pressed during [apt install]. *)
Definition w_interrupted : world :=
  mk_world_ending all_files REG_755 (Parsed config_ab) [(apt_install_ab, Interrupted)].

(** As [w_healthy], but [bash] cannot be started for [rosdep update]. *)
Definition w_no_bash : world :=
  mk_world_ending all_files REG_755 (Parsed config_ab) [(rosdep_update, SpawnFailed)].

(** [official-packages: ros-humble-desktop]: a string, not a list. *)
Definition w_scalar_packages : world :=
  mk_world all_files REG_755
    (Parsed (YMap {[ "official-packages" := YStr "ros-humble-desktop" ]})) [].

(** [official-packages: [a, 3]]: a list with a number in it. *)
Definition w_number_in_list : world :=
  mk_world all_files REG_755
    (Parsed (YMap {[ "official-packages" := YSeq [YStr "a"; YInt 3] ]})) [].

(** An empty [ros-config.yml]: the loader returns [None]. *)
Definition w_empty_file : world := mk_world all_files REG_755 (Parsed YNull) [].

(** As [w_healthy], but both [apt] commands fail. *)
Definition w_apt_fails : world :=
  mk_world all_files REG_755 (Parsed config_ab) [(apt_update, 100); (apt_install_ab, 100)].

(** As [w_healthy], but both [rosdep] commands fail. *)
Definition w_rosdep_fails : world :=
  mk_world all_files REG_755 (Parsed config_ab) [(rosdep_update, 1); (rosdep_install, 1)].

(** ** Bits of a mode *)

Local Open Scope list_scope.



Lemma chmod_mode_executable old : executable (chmod_mode old MODE_755).
Proof.
  unfold executable, chmod_mode. intros H0.
  assert (Hbit : Z.testbit (Z.land (Z.lor (Z.ldiff old S_IALLUGO) MODE_755) S_IXUGO) 0 = true).
  { rewrite Z.land_spec, Z.lor_spec.
    replace (Z.testbit MODE_755 0) with true by reflexivity.
    replace (Z.testbit S_IXUGO 0) with true by reflexivity.
    apply andb_true_iff; split; [apply orb_true_r | reflexivity]. }
  rewrite H0, Z.bits_0 in Hbit. discriminate.
Qed.

Lemma mode_of_insert w (s : modes) path mode : mode_of w (<[path := mode]> s) path = mode.
Proof. unfold mode_of. rewrite lookup_insert_eq. reflexivity. Qed.

(** ** Equations of the monad *)

Section Monad.

Context {A B : Type}.

Lemma res_pre (t : list event) (o : outcome A) : res (pre t o) = res o.
Proof. destruct o; reflexivity. Qed.

Lemma evs_pre (t : list event) (o : outcome A) : evs (pre t o) = t ++ evs o.
Proof. destruct o; reflexivity. Qed.

Lemma fs_pre (t : list event) (o : outcome A) : fs (pre t o) = fs o.
Proof. destruct o; reflexivity. Qed.

Lemma bind_Ret (m : M A) (k : A -> M B) s a :
  res (m s) = Ret a -> bind m k s = pre (evs (m s)) (k a (fs (m s))).
Proof. unfold bind. destruct (m s) as [r t s']; simpl. intros ->. reflexivity. Qed.

Lemma bind_Raise (m : M A) (k : A -> M B) s e :
  res (m s) = Raise e -> bind m k s = Outcome (Raise e) (evs (m s)) (fs (m s)).
Proof. unfold bind. destruct (m s) as [r t s']; simpl. intros ->. reflexivity. Qed.

Lemma bind_logger lvl msg (k : unit -> M B) s :
  bind (logger lvl msg) k s = pre [Log lvl msg] (k tt s).
Proof. reflexivity. Qed.

End Monad.

(** ** Observers distribute over concatenation *)

Lemma runs_app t1 t2 : runs (t1 ++ t2) = runs t1 ++ runs t2.
Proof. apply omap_app. Qed.

Lemma opens_app t1 t2 : opens (t1 ++ t2) = opens t1 ++ opens t2.
Proof. apply omap_app. Qed.

Lemma logs_app lvl t1 t2 : logs lvl (t1 ++ t2) = logs lvl t1 ++ logs lvl t2.
Proof. apply omap_app. Qed.

Lemma apt_runs_app t1 t2 : apt_runs (t1 ++ t2) = apt_runs t1 ++ apt_runs t2.
Proof. unfold apt_runs. rewrite runs_app, map_app. apply filter_app. Qed.

Lemma apt_runs_no_runs t : runs t = [] -> apt_runs t = [].
Proof. unfold apt_runs. intros ->. reflexivity. Qed.

Lemma logged_app_l lvl t1 t2 : logged lvl t1 -> logged lvl (t1 ++ t2).
Proof.
  unfold logged. rewrite logs_app. intros H Happ.
  apply app_eq_nil in Happ. tauto.
Qed.

Lemma logged_app_r lvl t1 t2 : logged lvl t2 -> logged lvl (t1 ++ t2).
Proof.
  unfold logged. rewrite logs_app. intros H Happ.
  apply app_eq_nil in Happ. tauto.
Qed.

(** ** check_environment *)

Section CheckEnvironment.

Variable w : world.
Variable self : ROSWorkspaceManager.

Lemma check_environment_missing s :
  exists_ w (prepare_script self) = false ->
  check_environment w self s =
    Outcome (Ret false)
      [FsExists (prepare_script self);
       Log ERROR [Txt "prepare.sh not found! This script is required for environment setup."]]
      s.
Proof.
  intros H. unfold check_environment, path_exists, bind, emit, ret, logger.
  cbn [pre]. rewrite H. reflexivity.
Qed.

Lemma check_environment_found s :
  res (check_environment w self s) = Ret true ->
  let o := check_environment w self s in
  res o = Ret true /\ runs (evs o) = [] /\ opens (evs o) = [] /\ logs ERROR (evs o) = [].
Proof.
  intros H. cbn zeta. split; [exact H|]. revert H.
  unfold check_environment, path_exists, path_stat, path_chmod, bind, emit, ret, logger.
  cbn [pre]. destruct (exists_ w (prepare_script self)); cbn; [|discriminate].
  destruct (Z.land (mode_of w s (prepare_script self)) S_IXUGO =? 0); cbn;
    [destruct (may_chmod w (prepare_script self)); cbn; [|discriminate]|];
    destruct (exists_ w (env_file self)); cbn; auto.
Qed.

(** The check passes exactly when [prepare.sh] exists and is executable
    or can be made so. *)
Lemma check_environment_passes_iff s :
  res (check_environment w self s) = Ret true <->
  exists_ w (prepare_script self) = true /\
  (executable (mode_of w s (prepare_script self)) \/
   may_chmod w (prepare_script self) = true).
Proof.
  unfold executable.
  unfold check_environment, path_exists, path_stat, path_chmod, bind, emit, ret, logger.
  cbn [pre]. destruct (exists_ w (prepare_script self)); cbn.
  2: { split; [discriminate | intros [[=] _]]. }
  destruct (Z.land (mode_of w s (prepare_script self)) S_IXUGO =? 0) eqn:Hx;
    [apply Z.eqb_eq in Hx | apply Z.eqb_neq in Hx]; cbn.
  - destruct (may_chmod w (prepare_script self)); cbn.
    + destruct (exists_ w (env_file self)); cbn; split; auto.
    + split; [discriminate | intros [_ [Hexec | [=]]]; congruence].
  - destruct (exists_ w (env_file self)); cbn; split; auto.
Qed.

End CheckEnvironment.

(** ** read_packages_config *)

Section ReadPackagesConfig.

Variable w : world.
Variable self : ROSWorkspaceManager.

Lemma read_packages_config_missing s :
  exists_ w (packages_file self) = false ->
  read_packages_config w self s =
    Outcome (Raise (SystemExit 1))
      [FsExists (packages_file self);
       Log ERROR [Txt "Error: "; Pth (packages_file self); Txt " not found!"]]
      s.
Proof.
  intros H. unfold read_packages_config, path_exists, bind, emit, ret, logger.
  cbn [pre]. rewrite H. reflexivity.
Qed.

Lemma read_packages_config_unparsable s :
  exists_ w (packages_file self) = true ->
  load w (packages_file self) = Unparsable ->
  read_packages_config w self s =
    Outcome (Raise (SystemExit 1))
      [FsExists (packages_file self); FsOpen (packages_file self);
       Log ERROR [Txt "Error parsing "; Pth (packages_file self); Txt ": "; Exc YAMLError]]
      s.
Proof.
  intros H Hl.
  unfold read_packages_config, path_exists, try_except, bind, emit, ret, logger.
  cbn [pre]. rewrite H. cbn. rewrite Hl. reflexivity.
Qed.

Lemma read_packages_config_loaded s config v n :
  exists_ w (packages_file self) = true ->
  load w (packages_file self) = Parsed config ->
  py_get config "official-packages" (YSeq []) = Some v ->
  py_len v = Some n ->
  read_packages_config w self s =
    Outcome (Ret v)
      [FsExists (packages_file self); FsOpen (packages_file self);
       Log INFO [Txt "Loaded "; Num n; Txt " official packages from config"]]
      s.
Proof.
  intros H Hl Hget Hlen.
  unfold read_packages_config, path_exists, try_except, bind, emit, ret, logger.
  cbn [pre]. rewrite H. cbn. rewrite Hl, Hget, Hlen. reflexivity.
Qed.

End ReadPackagesConfig.

(** ** Subprocesses *)

Lemma py_argv_strings (l : list string) : py_argv (map YStr l) = Some l.
Proof. induction l as [|x l IH]; simpl; [reflexivity | rewrite IH; reflexivity]. Qed.

(** Unfold a method down to the answers of the world, then split on each
    answer in program order. *)
Ltac spawn_cases :=
  repeat match goal with
    | |- context [spawn ?w ?a ?c] =>
        let st := fresh "status" in
        let E := fresh "Espawn" in
        destruct (spawn w a c) as [st| |] eqn:E;
        [ let Ez := fresh "Ezero" in destruct (st =? 0) eqn:Ez |..];
        cbn
    end.

(** ** install_official_packages *)

Section InstallOfficialPackages.

Variable w : world.

Lemma install_official_packages_nothing official_packages s :
  py_truthy official_packages = false ->
  install_official_packages w official_packages s =
    Outcome (Ret true) [Log INFO [Txt "No official packages to install"]] s.
Proof. intros H. unfold install_official_packages. rewrite H. reflexivity. Qed.

Lemma install_official_packages_update_fails (l : list yaml) s status :
  l <> [] ->
  spawn w apt_update None = Exited status ->
  status <> 0 ->
  install_official_packages w (YSeq l) s =
    Outcome (Ret false)
      [Log INFO [Txt "Installing "; Num (length l); Txt " official packages..."];
       Run apt_update None;
       Log ERROR [Txt "Failed to install official packages: ";
                  Exc (CalledProcessError apt_update status)]]
      s.
Proof.
  intros Hl Hs Hne. destruct l as [|x l]; [congruence|].
  apply Z.eqb_neq in Hne.
  unfold install_official_packages. cbn [py_truthy py_len length negb Nat.eqb].
  unfold try_except, bind, logger, emit, subprocess_run. cbn [pre].
  rewrite Hs, Hne. reflexivity.
Qed.

Lemma install_official_packages_strings (pkgs : list string) s :
  pkgs <> [] ->
  spawn w apt_update None = Exited 0 ->
  let o := install_official_packages w (YSeq (map YStr pkgs)) s in
  apt_runs (evs o) = [apt_update; apt_install ++ pkgs] /\
  runs (evs o) = [(apt_update, None); (apt_install ++ pkgs, None)] /\
  fs o = s /\
  forall status, spawn w (apt_install ++ pkgs) None = Exited status ->
                 res o = Ret (status =? 0).
Proof.
  intros Hl Hs. destruct pkgs as [|x pkgs]; [congruence|].
  unfold install_official_packages.
  cbn [py_truthy py_len length negb Nat.eqb map install_cmd].
  unfold try_except, bind, logger, emit, subprocess_run_values, subprocess_run.
  cbn [pre]. rewrite Hs. cbn [Z.eqb ret pre app].
  change (map YStr apt_install ++ YStr x :: map YStr pkgs)
    with (map YStr (apt_install ++ x :: pkgs)).
  rewrite py_argv_strings. cbn [pre app].
  spawn_cases; repeat split; try reflexivity; intros st [= <-]; rewrite ?Ezero; reflexivity.
Qed.

End InstallOfficialPackages.

Lemma install_official_packages_returns w (pkgs : list string) s :
  exits w apt_update None ->
  exits w (apt_install ++ pkgs) None ->
  let o := install_official_packages w (YSeq (map YStr pkgs)) s in
  (exists b, res o = Ret b) /\ fs o = s.
Proof.
  intros [c1 H1] [c2 H2]. destruct pkgs as [|x pkgs].
  - rewrite install_official_packages_nothing by reflexivity. simpl. eauto.
  - destruct (Z.eq_dec c1 0) as [-> | Hne].
    + destruct (install_official_packages_strings w (x :: pkgs) s) as (_ & _ & Hfs & Hres);
        [congruence | assumption |].
      split; [eexists; apply (Hres c2 H2) | exact Hfs].
    + change (YSeq (map YStr (x :: pkgs))) with (YSeq (YStr x :: map YStr pkgs)).
      rewrite (install_official_packages_update_fails w _ s c1) by (congruence || assumption).
      simpl. eauto.
Qed.

(** ** build_ws *)

Section BuildWs.

Variable w : world.
Variable self : ROSWorkspaceManager.

Abbreviation dir := (Some (workspace_dir self)).

Ltac build_ws_cases :=
  unfold build_ws, try_except, bind, logger, emit, subprocess_run;
  cbn [pre]; spawn_cases.

(** The state of the file system is not touched. *)
Lemma build_ws_fs s : fs (build_ws w self s) = s.
Proof. build_ws_cases; reflexivity. Qed.

(** No package-manager command is among its subprocesses. *)
Lemma build_ws_apt_runs s : apt_runs (evs (build_ws w self s)) = [].
Proof. build_ws_cases; reflexivity. Qed.

(** Its first subprocess is [rosdep update]. *)
Lemma build_ws_first_run s :
  exists rest, runs (evs (build_ws w self s)) = (rosdep_update, dir) :: rest.
Proof. build_ws_cases; eexists; reflexivity. Qed.

(** When both dependency commands run to their end, with whatever
    status, the build command is invoked. *)
Lemma build_ws_reaches_colcon s :
  exits w rosdep_update dir ->
  exits w rosdep_install dir ->
  (colcon_build, dir) ∈ runs (evs (build_ws w self s)).
Proof.
  intros [c1 H1] [c2 H2].
  unfold build_ws, try_except, bind, logger, emit, subprocess_run.
  cbn [pre]. rewrite H1, H2.
  destruct (c1 =? 0); cbn; [destruct (c2 =? 0); cbn|]; spawn_cases; set_solver.
Qed.

(** A failed [rosdep update] skips [rosdep install]. *)
Lemma build_ws_sync_fails s status :
  spawn w rosdep_update dir = Exited status ->
  status <> 0 ->
  let t := evs (build_ws w self s) in
  runs t = [(rosdep_update, dir); (colcon_build, dir)] /\
  logs WARNING t = [[Txt "Failed to install some dependencies: ";
                     Exc (CalledProcessError rosdep_update status)]].
Proof.
  intros H1 Hne. apply Z.eqb_neq in Hne.
  unfold build_ws, try_except, bind, logger, emit, subprocess_run.
  cbn [pre]. rewrite H1, Hne. cbn. spawn_cases; split; reflexivity.
Qed.

(** The result follows the status of the build command. *)
Lemma build_ws_result s status :
  exits w rosdep_update dir ->
  exits w rosdep_install dir ->
  spawn w colcon_build dir = Exited status ->
  res (build_ws w self s) = Ret (status =? 0).
Proof.
  intros [c1 H1] [c2 H2] H3.
  unfold build_ws, try_except, bind, logger, emit, subprocess_run.
  cbn [pre]. rewrite H1, H2, H3.
  destruct (c1 =? 0); cbn; [destruct (c2 =? 0); cbn|];
    destruct (status =? 0); reflexivity.
Qed.

(** A failed build is logged as an error. *)
Lemma build_ws_failure_logged s status :
  exits w rosdep_update dir ->
  exits w rosdep_install dir ->
  spawn w colcon_build dir = Exited status ->
  status <> 0 ->
  logs ERROR (evs (build_ws w self s)) =
    [[Txt "Failed to build workspace: "; Exc (CalledProcessError colcon_build status)]].
Proof.
  intros [c1 H1] [c2 H2] H3 Hne. apply Z.eqb_neq in Hne.
  unfold build_ws, try_except, bind, logger, emit, subprocess_run.
  cbn [pre]. rewrite H1, H2, H3, Hne.
  destruct (c1 =? 0); cbn; [destruct (c2 =? 0); cbn|]; reflexivity.
Qed.

End BuildWs.

(** ** setup_workspace *)

Section SetupWorkspace.

Variable w : world.
Variable self : ROSWorkspaceManager.

Lemma setup_workspace_missing s :
  exists_ w (prepare_script self) = false ->
  setup_workspace w self s =
    Outcome (Ret (Some false))
      [Log INFO [Txt "Setting up ROS workspace..."];
       FsExists (prepare_script self);
       Log ERROR [Txt "prepare.sh not found! This script is required for environment setup."];
       Log ERROR [Txt "Environment check failed!"]]
      s.
Proof.
  intros H. unfold setup_workspace. rewrite bind_logger.
  unfold bind at 1. rewrite check_environment_missing by assumption. reflexivity.
Qed.

(** Once the environment check has passed, the run is the loading of the
    configuration followed by what [setup_workspace] does with it. *)
Lemma setup_workspace_found s :
  res (check_environment w self s) = Ret true ->
  setup_workspace w self s =
    pre (Log INFO [Txt "Setting up ROS workspace..."] :: evs (check_environment w self s))
      ((let! official_packages := read_packages_config w self in
        install_official_packages w official_packages >>
        build_ws w self >>
        logger INFO [Txt "Workspace setup completed successfully!"] >>
        logger INFO [Txt "Custom packages are managed via git submodules"] >>
        logger INFO [Txt "To use the workspace, run: source prepare.sh"] >>
        ret None) (fs (check_environment w self s))).
Proof.
  intros H. destruct (check_environment_found w self s H) as (Hres & _).
  unfold setup_workspace. rewrite bind_logger.
  rewrite (bind_Ret _ _ _ true Hres). cbn [negb].
  match goal with |- pre _ (pre _ ?o) = _ => destruct o end. reflexivity.
Qed.

(** The configuration could not be loaded: the run ends there. *)
Lemma setup_workspace_exit s code t :
  res (check_environment w self s) = Ret true ->
  (forall s', read_packages_config w self s' = Outcome (Raise (SystemExit code)) t s') ->
  let o := setup_workspace w self s in
  res o = Raise (SystemExit code) /\
  evs o = Log INFO [Txt "Setting up ROS workspace..."]
          :: evs (check_environment w self s) ++ t.
Proof.
  intros H Hread. cbn zeta. rewrite setup_workspace_found by assumption.
  set (s1 := fs (check_environment w self s)).
  assert (Hres : res (read_packages_config w self s1) = Raise (SystemExit code))
    by (rewrite Hread; reflexivity).
  rewrite (bind_Raise _ _ _ _ Hres), Hread. split; reflexivity.
Qed.

(** The configuration was loaded: the installer step and the build step
    follow, whatever the installer step returns. *)
Lemma setup_workspace_loaded s official_packages t b :
  res (check_environment w self s) = Ret true ->
  (forall s', read_packages_config w self s' = Outcome (Ret official_packages) t s') ->
  (let s1 := fs (check_environment w self s) in
   res (install_official_packages w official_packages s1) = Ret b /\
   fs (install_official_packages w official_packages s1) = s1) ->
  let s1 := fs (check_environment w self s) in
  let o := setup_workspace w self s in
  evs o = Log INFO [Txt "Setting up ROS workspace..."]
          :: evs (check_environment w self s) ++ t
          ++ evs (install_official_packages w official_packages s1)
          ++ evs (build_ws w self s1)
          ++ match res (build_ws w self s1) with
             | Ret _ => [Log INFO [Txt "Workspace setup completed successfully!"];
                         Log INFO [Txt "Custom packages are managed via git submodules"];
                         Log INFO [Txt "To use the workspace, run: source prepare.sh"]]
             | Raise _ => []
             end /\
  res o = match res (build_ws w self s1) with
          | Ret _ => Ret None
          | Raise e => Raise e
          end.
Proof.
  intros H Hread Hinst. cbn zeta. rewrite setup_workspace_found by assumption.
  set (s1 := fs (check_environment w self s)) in *.
  destruct Hinst as [Hres Hfs].
  assert (Hcfg : res (read_packages_config w self s1) = Ret official_packages)
    by (rewrite Hread; reflexivity).
  rewrite (bind_Ret _ _ _ _ Hcfg), Hread. cbn [evs fs].
  rewrite (bind_Ret _ _ _ b Hres), Hfs.
  destruct (res (build_ws w self s1)) as [v|e] eqn:Hb.
  - rewrite (bind_Ret _ _ _ v Hb). rewrite !bind_logger.
    rewrite !res_pre, !evs_pre. cbn [evs res ret app]. split; reflexivity.
  - rewrite (bind_Raise _ _ _ e Hb).
    rewrite !res_pre, !evs_pre. cbn [evs res app]. rewrite app_nil_r. split; reflexivity.
Qed.

End SetupWorkspace.

(** ** main *)

Lemma run_script_eq w workspace :
  run_script w workspace =
    let o := setup_workspace w (init w workspace) ∅ in
    match res o with
    | Ret _ => Outcome (Ret tt) (evs o) (fs o)
    | Raise KeyboardInterrupt =>
        Outcome (Raise (SystemExit 1))
          (evs o ++ [Log INFO [Txt "Operation cancelled by user"]]) (fs o)
    | Raise (SystemExit code) => Outcome (Raise (SystemExit code)) (evs o) (fs o)
    | Raise e =>
        Outcome (Raise (SystemExit 1))
          (evs o ++ [Log ERROR [Txt "Unexpected error: "; Exc e]]) (fs o)
    end.
Proof.
  unfold run_script, main, try_except, bind. cbn zeta.
  destruct (setup_workspace w (init w workspace) ∅) as [[v|e] t s']; cbn.
  - rewrite app_nil_r. reflexivity.
  - destruct e; reflexivity.
Qed.

(** What [main] adds to the events of [setup_workspace] is a log line. *)
Lemma run_script_runs w workspace :
  runs (evs (run_script w workspace)) =
  runs (evs (setup_workspace w (init w workspace) ∅)).
Proof.
  rewrite run_script_eq. cbn zeta.
  destruct (res (setup_workspace w (init w workspace) ∅)) as [v|e];
    [reflexivity|].
  destruct e; cbn [evs]; rewrite ?runs_app; cbn; rewrite ?app_nil_r; reflexivity.
Qed.

Lemma run_script_apt_runs w workspace :
  apt_runs (evs (run_script w workspace)) =
  apt_runs (evs (setup_workspace w (init w workspace) ∅)).
Proof. unfold apt_runs. rewrite run_script_runs. reflexivity. Qed.

Lemma run_script_logged lvl w workspace :
  logged lvl (evs (setup_workspace w (init w workspace) ∅)) ->
  logged lvl (evs (run_script w workspace)).
Proof.
  intros H. rewrite run_script_eq. cbn zeta.
  destruct (res (setup_workspace w (init w workspace) ∅)) as [v|e]; [exact H|].
  destruct e; cbn [evs]; try exact H; apply logged_app_l; exact H.
Qed.

Lemma exit_code_eq w workspace :
  exit_code w workspace =
    match res (setup_workspace w (init w workspace) ∅) with
    | Ret _ => 0
    | Raise (SystemExit code) => code
    | Raise _ => 1
    end.
Proof.
  unfold exit_code. rewrite run_script_eq. cbn zeta.
  destruct (res (setup_workspace w (init w workspace) ∅)) as [v|e];
    [reflexivity|].
  destruct e; reflexivity.
Qed.

(** ** The package-manager invocations of a run *)

Lemma install_runs_stay_local w official_packages s :
  Forall (fun r => r.2 = None) (runs (evs (install_official_packages w official_packages s))).
Proof.
  unfold install_official_packages, try_except, bind, logger, emit,
    subprocess_run_values, subprocess_run.
  destruct (py_truthy official_packages); cbn; [|constructor].
  destruct (py_len official_packages); cbn; [|constructor].
  destruct (spawn w apt_update None) as [c| |]; [destruct (c =? 0)|..]; cbn;
    try (repeat constructor; fail).
  destruct (install_cmd official_packages) as [cmd|]; cbn;
    [|repeat constructor].
  destruct (py_argv cmd) as [argv|]; cbn; [|repeat constructor].
  destruct (spawn w argv None) as [c'| |]; [destruct (c' =? 0)|..]; cbn;
    repeat constructor.
Qed.

Section Composition.

Variable w : world.
Variable self : ROSWorkspaceManager.

Lemma config_lists_read pkgs :
  config_lists w self pkgs ->
  forall s, read_packages_config w self s =
    Outcome (Ret (YSeq (map YStr pkgs)))
      [FsExists (packages_file self); FsOpen (packages_file self);
       Log INFO [Txt "Loaded "; Num (length pkgs); Txt " official packages from config"]]
      s.
Proof.
  intros (Hex & m & Hload & Hm) s.
  apply (read_packages_config_loaded w self s (YMap m)); try assumption.
  - simpl. rewrite Hm. reflexivity.
  - simpl. rewrite length_map. reflexivity.
Qed.

(** After a successful load, the package-manager invocations of
    [setup_workspace] are those of the installer step. *)
Lemma setup_workspace_apt_runs s official_packages t :
  res (check_environment w self s) = Ret true ->
  (forall s', read_packages_config w self s' = Outcome (Ret official_packages) t s') ->
  runs t = [] ->
  apt_runs (evs (setup_workspace w self s)) =
  apt_runs (evs (install_official_packages w official_packages
                   (fs (check_environment w self s)))).
Proof.
  intros H Hread Ht. rewrite setup_workspace_found by assumption.
  destruct (check_environment_found w self s H) as (_ & Hruns & _).
  set (s1 := fs (check_environment w self s)).
  assert (Hcfg : res (read_packages_config w self s1) = Ret official_packages)
    by (rewrite Hread; reflexivity).
  rewrite (bind_Ret _ _ _ _ Hcfg), Hread. cbn [evs fs].
  set (i := install_official_packages w official_packages s1).
  assert (Hpre : apt_runs (Log INFO [Txt "Setting up ROS workspace..."]
                           :: evs (check_environment w self s)) = [])
    by (apply apt_runs_no_runs; exact Hruns).
  destruct (res i) as [b|e] eqn:Hi.
  - rewrite (bind_Ret _ _ _ b Hi).
    destruct (res (build_ws w self (fs i))) as [v|e] eqn:Hb.
    + rewrite (bind_Ret _ _ _ v Hb), !bind_logger.
      rewrite !evs_pre, !apt_runs_app, Hpre, (apt_runs_no_runs t Ht), build_ws_apt_runs.
      cbn. rewrite app_nil_r. reflexivity.
    + rewrite (bind_Raise _ _ _ e Hb).
      rewrite !evs_pre, !apt_runs_app, Hpre, (apt_runs_no_runs t Ht). cbn [evs].
      rewrite build_ws_apt_runs. cbn. rewrite app_nil_r. reflexivity.
  - rewrite (bind_Raise _ _ _ e Hi).
    rewrite !evs_pre, !apt_runs_app, Hpre, (apt_runs_no_runs t Ht). cbn [evs].
    reflexivity.
Qed.

End Composition.

(** * The claims *)

(** ** Environment check *)

(** C7. In every workspace without [prepare.sh] the run logs an error
    and stops there: its whole trace is the opening message, the probe for
    [prepare.sh] and two error messages.  No subprocess is spawned, no file
    is opened (the configuration file is not even looked for), and
    [setup_workspace] returns [False]. *)
Theorem missing_prepare_aborts (w : world) (workspace : option string) :
  exists_ w (prepare_script (init w workspace)) = false ->
  evs (run_script w workspace) =
    [Log INFO [Txt "Setting up ROS workspace..."];
     FsExists (prepare_script (init w workspace));
     Log ERROR [Txt "prepare.sh not found! This script is required for environment setup."];
     Log ERROR [Txt "Environment check failed!"]] /\
  logged ERROR (evs (run_script w workspace)) /\
  runs (evs (run_script w workspace)) = [] /\
  opens (evs (run_script w workspace)) = [] /\
  res (setup_workspace w (init w workspace) ∅) = Ret (Some false).
Proof.
  intros H. rewrite run_script_eq. cbn zeta.
  rewrite (setup_workspace_missing w _ ∅ H). cbn [res evs].
  repeat split; try reflexivity. unfold logged. cbn. discriminate.
Qed.

Lemma missing_prepare_aborts_witness :
  exists_ w_bare (prepare_script (init w_bare None)) = false /\
  runs (evs (run_script w_bare None)) = [].
Proof.
  split; [vm_compute; reflexivity|].
  apply (missing_prepare_aborts w_bare None). vm_compute. reflexivity.
Defined.




(** ** Package installation *)

(** C10. For every non-empty package list, when [apt update] returns a
    nonzero status, [install_official_packages] returns [False] and the
    update is the only subprocess it has spawned: no install command is
    attempted. *)
Theorem failed_update_blocks_install (w : world) (l : list yaml) (s : modes) (status : Z) :
  l <> [] ->
  spawn w apt_update None = Exited status ->
  status <> 0 ->
  res (install_official_packages w (YSeq l) s) = Ret false /\
  runs (evs (install_official_packages w (YSeq l) s)) = [(apt_update, None)].
Proof.
  intros Hl Hs Hne.
  rewrite (install_official_packages_update_fails w l s status Hl Hs Hne).
  split; reflexivity.
Qed.

Lemma failed_update_blocks_install_witness :
  res (install_official_packages w_update_fails (YSeq [YStr "a"; YStr "b"]) ∅) = Ret false /\
  runs (evs (install_official_packages w_update_fails (YSeq [YStr "a"; YStr "b"]) ∅))
    = [(apt_update, None)].
Proof.
  apply (failed_update_blocks_install w_update_fails [YStr "a"; YStr "b"] ∅ 100).
  - discriminate.
  - vm_compute. reflexivity.
  - lia.
Defined.

(** C5, as the spec words it, does not hold.  In [w_update_fails] the
    workspace is complete and the configuration lists [a] and [b], yet
    [apt update] returns 100 and the install command is never invoked.  In
    [w_lone_ab] the same configuration sits in a directory without
    [prepare.sh], and the package manager is not invoked at all. *)
Lemma install_depends_on_update :
  (config_lists w_update_fails (init w_update_fails None) ["a"; "b"] /\
   apt_runs (evs (run_script w_update_fails None)) = [apt_update] /\
   ~ installs_once ["a"; "b"] (evs (run_script w_update_fails None))) /\
  (config_lists w_lone_ab (init w_lone_ab None) ["a"; "b"] /\
   apt_runs (evs (run_script w_lone_ab None)) = [] /\
   ~ installs_once ["a"; "b"] (evs (run_script w_lone_ab None))).
Proof.
  split.
  - split; [|split].
    + split; [vm_compute; reflexivity|].
      eexists. split; [reflexivity|]. vm_compute. reflexivity.
    + vm_compute. reflexivity.
    + unfold installs_once. vm_compute. discriminate.
  - split; [|split].
    + split; [vm_compute; reflexivity|].
      eexists. split; [reflexivity|]. vm_compute. reflexivity.
    + vm_compute. reflexivity.
    + unfold installs_once. vm_compute. discriminate.
Qed.

(** C5, amended.  For every workspace whose environment check passes and
    whose configuration lists exactly [a] and [b], when [apt update]
    returns status 0 the package manager is invoked exactly twice: one
    update, then one install carrying both names. *)
Theorem install_once_after_update (w : world) (workspace : option string) :
  passes_check w (init w workspace) ->
  config_lists w (init w workspace) ["a"; "b"] ->
  spawn w apt_update None = Exited 0 ->
  installs_once ["a"; "b"] (evs (run_script w workspace)).
Proof.
  intros Hprep Hcfg Hupd. unfold installs_once.
  rewrite run_script_apt_runs.
  rewrite (setup_workspace_apt_runs w _ ∅ _ _ Hprep (config_lists_read w _ _ Hcfg))
    by reflexivity.
  apply (install_official_packages_strings w ["a"; "b"]); [discriminate | assumption].
Qed.

Lemma install_once_after_update_witness :
  installs_once ["a"; "b"] (evs (run_script w_healthy None)).
Proof.
  apply (install_once_after_update w_healthy None).
  - vm_compute. reflexivity.
  - split; [vm_compute; reflexivity|].
    eexists. split; [reflexivity|]. vm_compute. reflexivity.
  - vm_compute. reflexivity.
Defined.

(** ** Runs in which nothing is to be installed *)

Lemma runs_closing_messages (r : result bool) :
  runs match r with
       | Ret _ => [Log INFO [Txt "Workspace setup completed successfully!"];
                   Log INFO [Txt "Custom packages are managed via git submodules"];
                   Log INFO [Txt "To use the workspace, run: source prepare.sh"]]
       | Raise _ => []
       end = [].
Proof. destruct r; reflexivity. Qed.

(** The subprocesses of a run whose configuration was loaded and whose
    installer step returned. *)
Lemma setup_workspace_runs w self s official_packages t b :
  res (check_environment w self s) = Ret true ->
  (forall s', read_packages_config w self s' = Outcome (Ret official_packages) t s') ->
  runs t = [] ->
  (let s1 := fs (check_environment w self s) in
   res (install_official_packages w official_packages s1) = Ret b /\
   fs (install_official_packages w official_packages s1) = s1) ->
  runs (evs (setup_workspace w self s)) =
    runs (evs (install_official_packages w official_packages (fs (check_environment w self s))))
    ++ runs (evs (build_ws w self (fs (check_environment w self s)))).
Proof.
  intros H Hread Ht Hinst.
  destruct (setup_workspace_loaded w self s official_packages t b H Hread Hinst) as [-> _].
  destruct (check_environment_found w self s H) as (_ & Hruns & _).
  change (Log INFO [Txt "Setting up ROS workspace..."] :: ?x ++ ?y)
    with ((Log INFO [Txt "Setting up ROS workspace..."] :: x) ++ y).
  rewrite !runs_app, runs_closing_messages, Ht, app_nil_r.
  change (runs (Log INFO [Txt "Setting up ROS workspace..."]
                :: evs (check_environment w self s)))
    with (runs (evs (check_environment w self s))).
  rewrite Hruns. reflexivity.
Qed.

Section NothingToInstall.

Variable w : world.
Variable workspace : option string.

Abbreviation self := (init w workspace).
Abbreviation dir := (Some (workspace_dir (init w workspace))).

Hypothesis prepared : passes_check w self.

Variable official_packages : yaml.
Variable t : list event.

Hypothesis loaded :
  forall s, read_packages_config w self s = Outcome (Ret official_packages) t s.
Hypothesis quiet : runs t = [].
Hypothesis nothing : py_truthy official_packages = false.

Lemma nothing_installed s :
  res (install_official_packages w official_packages s) = Ret true /\
  fs (install_official_packages w official_packages s) = s.
Proof. rewrite install_official_packages_nothing by assumption. split; reflexivity. Qed.

Lemma nothing_to_install_apt_runs : apt_runs (evs (run_script w workspace)) = [].
Proof.
  rewrite run_script_apt_runs.
  rewrite (setup_workspace_apt_runs w _ ∅ _ _ prepared loaded quiet).
  rewrite install_official_packages_nothing by assumption. reflexivity.
Qed.

Lemma nothing_to_install_runs :
  runs (evs (run_script w workspace)) =
  runs (evs (build_ws w self (fs (check_environment w self ∅)))).
Proof.
  rewrite run_script_runs.
  rewrite (setup_workspace_runs w _ ∅ _ _ true prepared loaded quiet (nothing_installed _)).
  rewrite install_official_packages_nothing by assumption. reflexivity.
Qed.

Lemma nothing_to_install_exit_code :
  exits w rosdep_update dir ->
  exits w rosdep_install dir ->
  exits w colcon_build dir ->
  exit_code w workspace = 0.
Proof.
  intros H1 H2 [c H3]. rewrite exit_code_eq.
  destruct (setup_workspace_loaded w _ ∅ _ _ true prepared loaded (nothing_installed _))
    as [_ ->].
  rewrite (build_ws_result w _ _ c H1 H2 H3). reflexivity.
Qed.

End NothingToInstall.

(** C6, as the spec words it, does not hold: [w_lone_empty_list] has a
    valid configuration with an empty package list but no [prepare.sh];
    the run stops at the environment check and spawns nothing, so it never
    reaches the build step. *)
Lemma empty_list_behind_missing_prepare :
  config_lists w_lone_empty_list (init w_lone_empty_list None) [] /\
  runs (evs (run_script w_lone_empty_list None)) = [] /\
  ~ skips_to_build (init w_lone_empty_list None) (evs (run_script w_lone_empty_list None)).
Proof.
  split.
  - split; [vm_compute; reflexivity|].
    eexists. split; [reflexivity|]. vm_compute. reflexivity.
  - assert (Hruns : runs (evs (run_script w_lone_empty_list None)) = [])
      by (vm_compute; reflexivity).
    split; [exact Hruns|].
    intros (_ & rest & Hfirst). rewrite Hruns in Hfirst. discriminate.
Qed.

(** C6, amended.  For every workspace that passes the environment check
    and whose configuration holds an empty package list, the installer
    step only logs that there is nothing to install and returns [True];
    the whole run makes no package-manager invocation, and it goes on to
    the build step: the first subprocess of the run is the [rosdep update]
    of [build_ws], and [colcon build] is invoked whenever both dependency
    commands run to their end. *)
Theorem empty_list_skips_installer (w : world) (workspace : option string) :
  passes_check w (init w workspace) ->
  config_lists w (init w workspace) [] ->
  (forall s, install_official_packages w (YSeq []) s =
             Outcome (Ret true) [Log INFO [Txt "No official packages to install"]] s) /\
  skips_to_build (init w workspace) (evs (run_script w workspace)) /\
  (exits w rosdep_update (Some (workspace_dir (init w workspace))) ->
   exits w rosdep_install (Some (workspace_dir (init w workspace))) ->
   (colcon_build, Some (workspace_dir (init w workspace)))
     ∈ runs (evs (run_script w workspace))).
Proof.
  intros Hprep Hcfg.
  pose proof (config_lists_read w _ _ Hcfg) as Hread. cbn [map length] in Hread.
  split; [intros s; reflexivity|]. unfold skips_to_build.
  split; [split|].
  - apply (nothing_to_install_apt_runs w workspace Hprep _ _ Hread); reflexivity.
  - rewrite (nothing_to_install_runs w workspace Hprep _ _ Hread) by reflexivity.
    apply build_ws_first_run.
  - rewrite (nothing_to_install_runs w workspace Hprep _ _ Hread) by reflexivity.
    apply build_ws_reaches_colcon.
Qed.

Lemma empty_list_skips_installer_witness :
  skips_to_build (init w_empty_list None) (evs (run_script w_empty_list None)).
Proof.
  assert (Hprep : passes_check w_empty_list (init w_empty_list None))
    by (vm_compute; reflexivity).
  assert (Hcfg : config_lists w_empty_list (init w_empty_list None) []).
  { split; [vm_compute; reflexivity|].
    eexists. split; [reflexivity|]. vm_compute. reflexivity. }
  exact (proj1 (proj2 (empty_list_skips_installer w_empty_list None Hprep Hcfg))).
Defined.

(** C9, as written, does not hold: in [w_lone_no_key] the file
    [ros-config.yml] is a mapping without the [official-packages] key but
    there is no [prepare.sh]; the run stops at the environment check and
    never reaches the build step. *)
Lemma missing_key_behind_missing_prepare :
  exists_ w_lone_no_key (packages_file (init w_lone_no_key None)) = true /\
  load w_lone_no_key (packages_file (init w_lone_no_key None)) =
    Parsed (YMap {[ "custom-packages" := YSeq [YStr "x"] ]}) /\
  ({[ "custom-packages" := YSeq [YStr "x"] ]} : gmap string yaml)
    !! "official-packages" = None /\
  runs (evs (run_script w_lone_no_key None)) = [] /\
  ~ skips_to_build (init w_lone_no_key None) (evs (run_script w_lone_no_key None)).
Proof.
  split; [vm_compute; reflexivity|]. split; [reflexivity|].
  split; [vm_compute; reflexivity|].
  assert (Hruns : runs (evs (run_script w_lone_no_key None)) = [])
    by (vm_compute; reflexivity).
  split; [exact Hruns|].
  intros (_ & rest & Hfirst). rewrite Hruns in Hfirst. discriminate.
Qed.

(** C9, amended.  For every workspace that passes the environment check
    and whose [ros-config.yml] loads as a mapping without the
    [official-packages] key, [read_packages_config] returns the empty
    list; the run makes no package-manager invocation and goes on to the
    build step, whose [rosdep update] is the first subprocess of the run;
    and when the three commands of the build step run to their end the
    exit status is 0. *)
Theorem missing_key_reads_as_empty (w : world) (workspace : option string)
    (m : gmap string yaml) :
  passes_check w (init w workspace) ->
  exists_ w (packages_file (init w workspace)) = true ->
  load w (packages_file (init w workspace)) = Parsed (YMap m) ->
  m !! "official-packages" = None ->
  (forall s, res (read_packages_config w (init w workspace) s) = Ret (YSeq [])) /\
  skips_to_build (init w workspace) (evs (run_script w workspace)) /\
  (exits w rosdep_update (Some (workspace_dir (init w workspace))) ->
   exits w rosdep_install (Some (workspace_dir (init w workspace))) ->
   exits w colcon_build (Some (workspace_dir (init w workspace))) ->
   exit_code w workspace = 0).
Proof.
  intros Hprep Hex Hload Hm.
  assert (Hread : forall s, read_packages_config w (init w workspace) s =
            Outcome (Ret (YSeq []))
              [FsExists (packages_file (init w workspace));
               FsOpen (packages_file (init w workspace));
               Log INFO [Txt "Loaded "; Num 0; Txt " official packages from config"]] s).
  { intros s. apply (read_packages_config_loaded w _ s (YMap m)); try assumption.
    - simpl. rewrite Hm. reflexivity.
    - reflexivity. }
  split; [intros s; rewrite Hread; reflexivity|]. unfold skips_to_build.
  split; [split|].
  - apply (nothing_to_install_apt_runs w workspace Hprep _ _ Hread); reflexivity.
  - rewrite (nothing_to_install_runs w workspace Hprep _ _ Hread) by reflexivity.
    apply build_ws_first_run.
  - apply (nothing_to_install_exit_code w workspace Hprep _ _ Hread). reflexivity.
Qed.

Lemma missing_key_reads_as_empty_witness :
  res (read_packages_config w_no_key (init w_no_key None) ∅) = Ret (YSeq []) /\
  skips_to_build (init w_no_key None) (evs (run_script w_no_key None)) /\
  exit_code w_no_key None = 0.
Proof.
  assert (Hprep : passes_check w_no_key (init w_no_key None))
    by (vm_compute; reflexivity).
  assert (Hex : exists_ w_no_key (packages_file (init w_no_key None)) = true)
    by (vm_compute; reflexivity).
  assert (Hm : ({[ "custom-packages" := YSeq [YStr "x"] ]} : gmap string yaml)
                 !! "official-packages" = None)
    by (vm_compute; reflexivity).
  destruct (missing_key_reads_as_empty w_no_key None _ Hprep Hex eq_refl Hm)
    as (Hread & Hskip & Hexit).
  split; [apply Hread|]. split; [exact Hskip|].
  apply Hexit; eexists; vm_compute; reflexivity.
Defined.

(** ** An unusable configuration *)

(** C4. The claim asks for exit status 1 whenever [ros-config.yml] is
    missing.  In the empty directory [w_bare] the run logs an error and
    spawns nothing, as the claim says, but it ends in the environment
    check: [setup_workspace] returns [False] without looking for the
    configuration, [main] drops that value, and the exit status is 0. *)
Theorem missing_config_exit_status :
  exists_ w_bare (packages_file (init w_bare None)) = false /\
  logged ERROR (evs (run_script w_bare None)) /\
  runs (evs (run_script w_bare None)) = [] /\
  res (setup_workspace w_bare (init w_bare None) ∅) = Ret (Some false) /\
  exit_code w_bare None = 0 /\
  ~ fatal_preflight (run_script w_bare None).
Proof.
  split; [vm_compute; reflexivity|].
  split; [unfold logged; vm_compute; discriminate|].
  split; [vm_compute; reflexivity|].
  split; [vm_compute; reflexivity|].
  split; [vm_compute; reflexivity|].
  intros (Hexit & _). vm_compute in Hexit. discriminate.
Qed.

(** Where the run reaches [read_packages_config], a configuration that
    is missing or is not parsable YAML ends it with exit status 1, an
    error logged and no subprocess spawned. *)
Lemma unusable_config_is_fatal (w : world) (workspace : option string) :
  passes_check w (init w workspace) ->
  exists_ w (packages_file (init w workspace)) = false \/
  load w (packages_file (init w workspace)) = Unparsable ->
  fatal_preflight (run_script w workspace).
Proof.
  intros Hprep Hcfg.
  assert (Hread : exists t, runs t = [] /\ logged ERROR t /\
            forall s, read_packages_config w (init w workspace) s =
                      Outcome (Raise (SystemExit 1)) t s).
  { destruct (exists_ w (packages_file (init w workspace))) eqn:Hex.
    - destruct Hcfg as [? | Hload]; [discriminate|].
      eexists. split; [|split]; [| |intros s; apply read_packages_config_unparsable; assumption].
      + reflexivity.
      + unfold logged. cbn. discriminate.
    - eexists. split; [|split]; [| |intros s; apply read_packages_config_missing; assumption].
      + reflexivity.
      + unfold logged. cbn. discriminate. }
  destruct Hread as (t & Ht & Herr & Hread).
  destruct (setup_workspace_exit w _ ∅ 1 t Hprep Hread) as [Hres Hevs].
  destruct (check_environment_found w (init w workspace) ∅ Hprep) as (_ & Hruns & _).
  unfold fatal_preflight. rewrite run_script_eq. cbn zeta. rewrite Hres. cbn [res evs].
  rewrite Hevs. split; [reflexivity|]. split.
  - change (Log INFO [Txt "Setting up ROS workspace..."] :: ?x ++ ?y)
      with ((Log INFO [Txt "Setting up ROS workspace..."] :: x) ++ y).
    apply logged_app_r. exact Herr.
  - change (Log INFO [Txt "Setting up ROS workspace..."] :: ?x ++ ?y)
      with ((Log INFO [Txt "Setting up ROS workspace..."] :: x) ++ y).
    rewrite runs_app, Ht, app_nil_r. exact Hruns.
Qed.

Lemma unusable_config_is_fatal_witness :
  fatal_preflight (run_script w_no_config None) /\
  fatal_preflight (run_script w_bad_yaml None).
Proof.
  split.
  - apply (unusable_config_is_fatal w_no_config None).
    + vm_compute. reflexivity.
    + left. vm_compute. reflexivity.
  - apply (unusable_config_is_fatal w_bad_yaml None).
    + vm_compute. reflexivity.
    + right. vm_compute. reflexivity.
Defined.

(** ** Failures that do not stop the run *)

(** C3, as the spec words it, does not hold: in [w_sync_fails] the
    command [rosdep update] returns 1 and [rosdep install] is not invoked
    afterwards; the two share one [try] block. *)
Lemma failed_sync_skips_dependency_install :
  spawn w_sync_fails rosdep_update (Some "/ws") = Exited 1 /\
  ~ (rosdep_install, Some "/ws") ∈ runs (evs (run_script w_sync_fails None)) /\
  runs (evs (run_script w_sync_fails None)) =
    [(apt_update, None); (apt_install_ab, None);
     (rosdep_update, Some "/ws"); (colcon_build, Some "/ws")].
Proof.
  split; [vm_compute; reflexivity|].
  assert (Hruns : runs (evs (run_script w_sync_fails None)) =
    [(apt_update, None); (apt_install_ab, None);
     (rosdep_update, Some "/ws"); (colcon_build, Some "/ws")])
    by (vm_compute; reflexivity).
  split; [|exact Hruns].
  rewrite Hruns. intros Hin.
  repeat (apply elem_of_cons in Hin; destruct Hin as [Heq | Hin]; [discriminate Heq|]).
  inversion Hin.
Qed.

(** C3, amended.  For every workspace that passes the environment check
    and whose configuration lists package names, whatever status the two
    package-manager commands and the two dependency commands return, the
    run is not aborted: [colcon build] is invoked.  When [rosdep update]
    returns a nonzero status, [rosdep install] is not invoked and a
    warning is logged. *)
Theorem dependency_failures_do_not_abort (w : world) (workspace : option string)
    (pkgs : list string) :
  passes_check w (init w workspace) ->
  config_lists w (init w workspace) pkgs ->
  exits w apt_update None ->
  exits w (apt_install ++ pkgs) None ->
  exits w rosdep_update (Some (workspace_dir (init w workspace))) ->
  exits w rosdep_install (Some (workspace_dir (init w workspace))) ->
  (colcon_build, Some (workspace_dir (init w workspace)))
    ∈ runs (evs (run_script w workspace)) /\
  forall status,
    spawn w rosdep_update (Some (workspace_dir (init w workspace))) = Exited status ->
    status <> 0 ->
    ~ (rosdep_install, Some (workspace_dir (init w workspace)))
        ∈ runs (evs (run_script w workspace)) /\
    logged WARNING (evs (run_script w workspace)).
Proof.
  intros Hprep Hcfg Hupd Hinst Hsync Hdeps.
  pose proof (config_lists_read w _ _ Hcfg) as Hread.
  set (self := init w workspace) in *.
  set (s1 := fs (check_environment w self ∅)).
  destruct (install_official_packages_returns w pkgs s1 Hupd Hinst) as [[b Hb] Hfs].
  assert (Hruns : runs (evs (run_script w workspace)) =
            runs (evs (install_official_packages w (YSeq (map YStr pkgs)) s1))
            ++ runs (evs (build_ws w self s1))).
  { rewrite run_script_runs.
    apply (setup_workspace_runs w self ∅ _ _ b Hprep Hread); [reflexivity|].
    split; assumption. }
  split.
  - rewrite Hruns. apply elem_of_app. right.
    apply build_ws_reaches_colcon; assumption.
  - intros status Hstatus Hne.
    destruct (build_ws_sync_fails w self s1 status Hstatus Hne) as [Hbuild Hwarn].
    split.
    + rewrite Hruns, Hbuild. intros Hin. apply elem_of_app in Hin.
      destruct Hin as [Hin | Hin].
      * pose proof (install_runs_stay_local w (YSeq (map YStr pkgs)) s1) as Hlocal.
        rewrite Forall_forall in Hlocal. specialize (Hlocal _ Hin). discriminate Hlocal.
      * repeat (apply elem_of_cons in Hin; destruct Hin as [Heq | Hin];
                [discriminate Heq|]).
        inversion Hin.
    + apply run_script_logged. fold self.
      destruct (setup_workspace_loaded w self ∅ _ _ b Hprep Hread (conj Hb Hfs)) as [-> _].
      change (Log INFO [Txt "Setting up ROS workspace..."] :: ?x ++ ?y)
        with ((Log INFO [Txt "Setting up ROS workspace..."] :: x) ++ y).
      do 3 apply logged_app_r. apply logged_app_l.
      unfold logged. fold s1. rewrite Hwarn. discriminate.
Qed.

Lemma dependency_failures_do_not_abort_witness :
  (colcon_build, Some "/ws") ∈ runs (evs (run_script w_sync_fails None)) /\
  ~ (rosdep_install, Some "/ws") ∈ runs (evs (run_script w_sync_fails None)) /\
  logged WARNING (evs (run_script w_sync_fails None)).
Proof.
  assert (Hprep : passes_check w_sync_fails (init w_sync_fails None))
    by (vm_compute; reflexivity).
  assert (Hcfg : config_lists w_sync_fails (init w_sync_fails None) ["a"; "b"]).
  { split; [vm_compute; reflexivity|].
    eexists. split; [reflexivity|]. vm_compute. reflexivity. }
  assert (Hexits : forall argv cwd, exits w_sync_fails argv cwd)
    by (intros argv cwd; eexists; reflexivity).
  destruct (dependency_failures_do_not_abort w_sync_fails None ["a"; "b"] Hprep Hcfg
              (Hexits _ _) (Hexits _ _) (Hexits _ _) (Hexits _ _)) as [Hbuild Hskip].
  split; [exact Hbuild|].
  apply (Hskip 1); [vm_compute; reflexivity | lia].
Defined.

(** ** A failed build *)

(** Whenever the build command fails, [setup_workspace] still ends
    without a [return] and the process exits with status 0. *)
Lemma build_failure_goes_unreported (w : world) (workspace : option string)
    (pkgs : list string) (status : Z) :
  passes_check w (init w workspace) ->
  config_lists w (init w workspace) pkgs ->
  exits w apt_update None ->
  exits w (apt_install ++ pkgs) None ->
  exits w rosdep_update (Some (workspace_dir (init w workspace))) ->
  exits w rosdep_install (Some (workspace_dir (init w workspace))) ->
  spawn w colcon_build (Some (workspace_dir (init w workspace))) = Exited status ->
  status <> 0 ->
  res (setup_workspace w (init w workspace) ∅) = Ret None /\
  exit_code w workspace = 0.
Proof.
  intros Hprep Hcfg Hupd Hinst Hsync Hdeps Hbuild Hne.
  pose proof (config_lists_read w _ _ Hcfg) as Hread.
  destruct (install_official_packages_returns w pkgs
              (fs (check_environment w (init w workspace) ∅)) Hupd Hinst) as [[b Hb] Hfs].
  destruct (setup_workspace_loaded w _ ∅ _ _ b Hprep Hread (conj Hb Hfs)) as [_ Hres].
  rewrite (build_ws_result w _ _ status Hsync Hdeps Hbuild) in Hres.
  split; [exact Hres|]. rewrite exit_code_eq, Hres. reflexivity.
Qed.

(** C1. The claim asks for exit status 1 when the build command fails.
    In [w_build_fails] every step up to the build succeeds and
    [colcon build] returns 2: the failure is logged as an error, and the
    process exits with status 0. *)
Theorem build_failure_exit_status :
  spawn w_build_fails colcon_build (Some "/ws") = Exited 2 /\
  runs (evs (run_script w_build_fails None)) =
    [(apt_update, None); (apt_install_ab, None); (rosdep_update, Some "/ws");
     (rosdep_install, Some "/ws"); (colcon_build, Some "/ws")] /\
  logs ERROR (evs (run_script w_build_fails None)) =
    [[Txt "Failed to build workspace: "; Exc (CalledProcessError colcon_build 2)]] /\
  exit_code w_build_fails None = 0.
Proof. repeat split; vm_compute; reflexivity. Qed.

(** C2. The claim asks [setup_workspace] to report the failure of the
    build command as its result.  In [w_build_fails] the installer step
    returns [True] and [build_ws] returns [False] after logging the error,
    but [setup_workspace] drops that value, logs that the setup completed
    successfully and returns [None], exactly as it does in [w_healthy]
    where the build succeeds. *)
Theorem build_failure_setup_result :
  res (install_official_packages w_build_fails (YSeq [YStr "a"; YStr "b"]) ∅) = Ret true /\
  res (build_ws w_build_fails (init w_build_fails None) ∅) = Ret false /\
  logs ERROR (evs (setup_workspace w_build_fails (init w_build_fails None) ∅)) =
    [[Txt "Failed to build workspace: "; Exc (CalledProcessError colcon_build 2)]] /\
  In [Txt "Workspace setup completed successfully!"]
     (logs INFO (evs (setup_workspace w_build_fails (init w_build_fails None) ∅))) /\
  res (setup_workspace w_build_fails (init w_build_fails None) ∅) = Ret None /\
  res (setup_workspace w_healthy (init w_healthy None) ∅) = Ret None.
Proof.
  repeat split; try (vm_compute; reflexivity).
  vm_compute. auto 20.
Qed.

(** * Beyond the claims *)

(** ** What each step can do *)

Lemma py_argv_Some (l : list yaml) (a : list string) :
  py_argv l = Some a -> l = map YStr a.
Proof.
  revert a. induction l as [|v l IH]; simpl; intros a H.
  - injection H as <-. reflexivity.
  - destruct v; try discriminate.
    destruct (py_argv l) as [a'|]; [|discriminate].
    injection H as <-. simpl. f_equal. apply IH. reflexivity.
Qed.

Lemma strings_of_Some (v : yaml) (pkgs : list string) :
  strings_of v = Some pkgs <-> v = YSeq (map YStr pkgs).
Proof.
  split.
  - destruct v; simpl; try discriminate. intros H. f_equal. apply py_argv_Some, H.
  - intros ->. simpl. apply py_argv_strings.
Qed.

(** Settle [halts_at] on a trace whose subprocesses are listed. *)
Ltac halts :=
  let Hin := fresh "Hin" in
  let Hbad := fresh "Hbad" in
  let Heq := fresh "Heq" in
  intros ? ? Hin Hbad; cbn in Hin;
  repeat (apply elem_of_cons in Hin; destruct Hin as [Heq | Hin];
          [ injection Heq as -> ->;
            first [ exfalso; congruence | split; reflexivity ] |]);
  apply elem_of_nil in Hin; destruct Hin.

(** Settle one fact about an outcome that is written out. *)
Ltac step_facts :=
  first [ reflexivity
        | (let Hc := fresh "Hc" in intros ? Hc; cbn in Hc; discriminate Hc)
        | halts
        | (repeat constructor; fail)
        | (cbn; lia) ].

Lemma build_ws_facts w self s :
  fs (build_ws w self s) = s /\
  chmods (evs (build_ws w self s)) = [] /\
  opens (evs (build_ws w self s)) = [] /\
  exits_loudly (build_ws w self s) /\
  halts_at w Interrupted KeyboardInterrupt (build_ws w self s) /\
  halts_at w SpawnFailed OSError (build_ws w self s) /\
  Forall (fun r => r.2 = Some (workspace_dir self) /\ sources_prepare r.1 = true)
    (runs (evs (build_ws w self s))) /\
  (length (runs (evs (build_ws w self s))) <= 3)%nat.
Proof.
  unfold build_ws, try_except, bind, logger, emit, subprocess_run.
  cbn [pre]. spawn_cases.
  all: split_and!; step_facts.
Qed.

Lemma install_official_packages_facts w official_packages s :
  fs (install_official_packages w official_packages s) = s /\
  chmods (evs (install_official_packages w official_packages s)) = [] /\
  opens (evs (install_official_packages w official_packages s)) = [] /\
  exits_loudly (install_official_packages w official_packages s) /\
  halts_at w Interrupted KeyboardInterrupt (install_official_packages w official_packages s) /\
  halts_at w SpawnFailed OSError (install_official_packages w official_packages s) /\
  Forall (fun r => r.2 = None /\ is_apt r.1 = true)
    (runs (evs (install_official_packages w official_packages s))) /\
  (length (runs (evs (install_official_packages w official_packages s))) <= 2)%nat.
Proof.
  unfold install_official_packages, try_except, bind, logger, emit,
    subprocess_run_values, subprocess_run.
  destruct (py_truthy official_packages); cbn; [|split_and!; step_facts].
  destruct (py_len official_packages); cbn; [|split_and!; step_facts].
  destruct (spawn w apt_update None) as [c| |] eqn:Hupd;
    [destruct (c =? 0) eqn:Hc|..]; cbn; try (split_and!; step_facts).
  destruct (install_cmd official_packages) as [cmd|] eqn:Hcmd; cbn;
    [|split_and!; step_facts].
  destruct official_packages; try discriminate Hcmd. injection Hcmd as <-.
  cbn. destruct (py_argv l) as [names|]; cbn; [|split_and!; step_facts].
  spawn_cases; split_and!; step_facts.
Qed.

Lemma read_packages_config_facts w self s :
  fs (read_packages_config w self s) = s /\
  runs (evs (read_packages_config w self s)) = [] /\
  chmods (evs (read_packages_config w self s)) = [] /\
  exits_loudly (read_packages_config w self s) /\
  (forall e, res (read_packages_config w self s) = Raise e -> e = SystemExit 1) /\
  (forall v, res (read_packages_config w self s) = Ret v -> py_len v <> None).
Proof.
  unfold exits_loudly, logged.
  unfold read_packages_config, path_exists, try_except, bind, emit, ret, logger.
  cbn [pre]. destruct (exists_ w (packages_file self)); cbn.
  2: { split_and!; try reflexivity; try (intros ? [= <-]; try split; done); intros ? [=]. }
  destruct (load w (packages_file self)) as [config| |]; cbn.
  2,3: split_and!; try reflexivity; try (intros ? [= <-]; try split; done); intros ? [=].
  destruct (py_get config "official-packages" (YSeq [])) as [v|]; cbn.
  2: { split_and!; try reflexivity; try (intros ? [= <-]; try split; done); intros ? [=]. }
  destruct (py_len v) as [n|] eqn:Hlen; cbn.
  2: { split_and!; try reflexivity; try (intros ? [= <-]; try split; done); intros ? [=]. }
  split_and!; try reflexivity; try (intros ? [=]; fail).
  intros ? [= <-]. rewrite Hlen. discriminate.
Qed.

Lemma check_environment_facts w self s :
  res (check_environment w self s) =
    (if exists_ w (prepare_script self)
     then if (Z.land (mode_of w s (prepare_script self)) S_IXUGO =? 0)
             && negb (may_chmod w (prepare_script self))
          then Raise OSError else Ret true
     else Ret false) /\
  runs (evs (check_environment w self s)) = [] /\
  opens (evs (check_environment w self s)) = [] /\
  (forall path, path <> prepare_script self ->
                fs (check_environment w self s) !! path = s !! path) /\
  chmods (evs (check_environment w self s)) =
    (if exists_ w (prepare_script self) && (Z.land (mode_of w s (prepare_script self)) S_IXUGO =? 0)
     then [(prepare_script self, MODE_755)] else []) /\
  mode_of w (fs (check_environment w self s)) (prepare_script self) =
    (if exists_ w (prepare_script self)
        && (Z.land (mode_of w s (prepare_script self)) S_IXUGO =? 0)
        && may_chmod w (prepare_script self)
     then chmod_mode (mode_of w s (prepare_script self)) MODE_755
     else mode_of w s (prepare_script self)).
Proof.
  unfold check_environment, path_exists, path_stat, path_chmod, bind, emit, ret, logger.
  cbn [pre]. destruct (exists_ w (prepare_script self)); cbn; [|split_and!; done].
  destruct (Z.land (mode_of w s (prepare_script self)) S_IXUGO =? 0); cbn;
    [destruct (may_chmod w (prepare_script self)); cbn|];
    destruct (exists_ w (env_file self)); cbn; split_and!; try done.
  all: try (intros path Hne; apply lookup_insert_ne; congruence).
  all: apply mode_of_insert.
Qed.

(** The three ways the environment check can end. *)
Lemma check_environment_cases w self s :
  res (check_environment w self s) = Ret true \/
  exists_ w (prepare_script self) = false \/
  (res (check_environment w self s) = Raise OSError /\
   exists_ w (prepare_script self) = true).
Proof.
  destruct (check_environment_facts w self s) as (-> & _).
  destruct (exists_ w (prepare_script self)); [|auto].
  destruct (_ && _); auto.
Qed.

(** A refused [chmod] ends [setup_workspace] in the environment check. *)
Lemma setup_workspace_refused w self s e :
  res (check_environment w self s) = Raise e ->
  setup_workspace w self s =
    Outcome (Raise e)
      (Log INFO [Txt "Setting up ROS workspace..."] :: evs (check_environment w self s))
      (fs (check_environment w self s)).
Proof.
  intros H. unfold setup_workspace. rewrite bind_logger.
  rewrite (bind_Raise _ _ _ e H). reflexivity.
Qed.

(** ** The stages of a run *)

(** Past the environment check, [setup_workspace] is the loading of the
    configuration, the installer step and the build step, each cut short
    by the first exception. *)
Lemma setup_workspace_stages w self s :
  res (check_environment w self s) = Ret true ->
  fs (setup_workspace w self s) = fs (check_environment w self s) /\
  match res (read_packages_config w self (fs (check_environment w self s))) with
  | Raise e =>
      res (setup_workspace w self s) = Raise e /\
      evs (setup_workspace w self s) =
        (Log INFO [Txt "Setting up ROS workspace..."] :: evs (check_environment w self s))
        ++ evs (read_packages_config w self (fs (check_environment w self s)))
  | Ret v =>
      match res (install_official_packages w v (fs (check_environment w self s))) with
      | Raise e =>
          res (setup_workspace w self s) = Raise e /\
          evs (setup_workspace w self s) =
            (Log INFO [Txt "Setting up ROS workspace..."] :: evs (check_environment w self s))
            ++ evs (read_packages_config w self (fs (check_environment w self s)))
            ++ evs (install_official_packages w v (fs (check_environment w self s)))
      | Ret _ =>
          evs (setup_workspace w self s) =
            (Log INFO [Txt "Setting up ROS workspace..."] :: evs (check_environment w self s))
            ++ evs (read_packages_config w self (fs (check_environment w self s)))
            ++ evs (install_official_packages w v (fs (check_environment w self s)))
            ++ evs (build_ws w self (fs (check_environment w self s)))
            ++ match res (build_ws w self (fs (check_environment w self s))) with
               | Ret _ => [Log INFO [Txt "Workspace setup completed successfully!"];
                           Log INFO [Txt "Custom packages are managed via git submodules"];
                           Log INFO [Txt "To use the workspace, run: source prepare.sh"]]
               | Raise _ => []
               end /\
          res (setup_workspace w self s) =
            match res (build_ws w self (fs (check_environment w self s))) with
            | Ret _ => Ret None
            | Raise e => Raise e
            end
      end
  end.
Proof.
  intros H. rewrite setup_workspace_found by assumption.
  set (s1 := fs (check_environment w self s)).
  destruct (read_packages_config_facts w self s1) as (Hfs_r & _).
  destruct (res (read_packages_config w self s1)) as [v|e] eqn:Hr.
  - rewrite (bind_Ret _ _ _ v Hr), Hfs_r.
    destruct (install_official_packages_facts w v s1) as (Hfs_i & _).
    destruct (res (install_official_packages w v s1)) as [b|e] eqn:Hi.
    + rewrite (bind_Ret _ _ _ b Hi), Hfs_i.
      destruct (build_ws_facts w self s1) as (Hfs_b & _).
      destruct (res (build_ws w self s1)) as [b'|e] eqn:Hb.
      * rewrite (bind_Ret _ _ _ b' Hb), Hfs_b, !bind_logger.
        rewrite !fs_pre, !res_pre, !evs_pre. cbn [fs evs res ret app]. done.
      * rewrite (bind_Raise _ _ _ e Hb), Hfs_b.
        rewrite !fs_pre, !res_pre, !evs_pre. cbn [fs evs res app].
        rewrite app_nil_r. done.
    + rewrite (bind_Raise _ _ _ e Hi), Hfs_i.
      rewrite !fs_pre, !res_pre, !evs_pre. cbn [fs evs res app]. done.
  - rewrite (bind_Raise _ _ _ e Hr), Hfs_r.
    rewrite !fs_pre, !res_pre, !evs_pre. cbn [fs evs res app]. done.
Qed.

Lemma logged_cons lvl e t : logged lvl t -> logged lvl (e :: t).
Proof. apply (logged_app_r lvl [e] t). Qed.

Lemma setup_workspace_exits_loudly w self s : exits_loudly (setup_workspace w self s).
Proof.
  destruct (check_environment_cases w self s) as [H | [H | [H _]]].
  2: { rewrite setup_workspace_missing by assumption. intros code [=]. }
  2: { rewrite (setup_workspace_refused w self s _ H). intros code [=]. }
  destruct (setup_workspace_stages w self s H) as [_ Hstages].
  set (s1 := fs (check_environment w self s)) in *.
  destruct (read_packages_config_facts w self s1) as (_ & _ & _ & Hloud_r & _).
  intros code Hcode.
  destruct (res (read_packages_config w self s1)) as [v|e] eqn:Hr.
  - destruct (install_official_packages_facts w v s1) as (_ & _ & _ & Hloud_i & _).
    destruct (res (install_official_packages w v s1)) as [b|e] eqn:Hi.
    + destruct Hstages as [Hevs Hres].
      destruct (build_ws_facts w self s1) as (_ & _ & _ & Hloud_b & _).
      destruct (res (build_ws w self s1)) as [b'|e] eqn:Hb; [congruence|].
      rewrite Hres in Hcode. destruct (Hloud_b code) as [-> Herr]; [congruence|].
      split; [reflexivity|]. rewrite Hevs, app_nil_r.
      do 3 apply logged_app_r. exact Herr.
    + destruct Hstages as [Hres Hevs]. rewrite Hres in Hcode.
      destruct (Hloud_i code) as [-> Herr]; [congruence|].
      split; [reflexivity|]. rewrite Hevs. do 2 apply logged_app_r. exact Herr.
  - destruct Hstages as [Hres Hevs]. rewrite Hres in Hcode.
    destruct (Hloud_r code) as [-> Herr]; [congruence|].
    split; [reflexivity|]. rewrite Hevs. apply logged_app_r. exact Herr.
Qed.

(** ** Exit status *)

(** X1. Once the command line is parsed, the [try] statement of [main]
    gives the process exit status 0 or 1: 0 exactly when [setup_workspace]
    returns, whatever it returns, and 1 when it ends by an exception,
    [sys.exit] included. *)
Theorem exit_code_zero_or_one (w : world) (workspace : option string) :
  exit_code w workspace =
    match res (setup_workspace w (init w workspace) ∅) with
    | Ret _ => 0
    | Raise _ => 1
    end.
Proof.
  rewrite exit_code_eq.
  destruct (res (setup_workspace w (init w workspace) ∅)) as [v|e] eqn:Hres;
    [reflexivity|].
  destruct e; try reflexivity.
  destruct (setup_workspace_exits_loudly w (init w workspace) ∅ code Hres) as [-> _].
  reflexivity.
Qed.

(** X2. No run fails silently: when the exit status is 1, either an
    error was logged or the run was cancelled from the keyboard, in which
    case the cancellation message is the last thing logged. *)
Theorem exit_one_is_logged (w : world) (workspace : option string) :
  exit_code w workspace = 1 ->
  logged ERROR (evs (run_script w workspace)) \/
  last (evs (run_script w workspace)) = Some (Log INFO [Txt "Operation cancelled by user"]).
Proof.
  rewrite exit_code_eq, run_script_eq. cbn zeta.
  destruct (res (setup_workspace w (init w workspace) ∅)) as [v|e] eqn:Hres;
    [discriminate|].
  intros _. destruct e; cbn [evs];
    try (left; apply logged_app_r; unfold logged; cbn; discriminate).
  - right. apply last_snoc.
  - left. apply (setup_workspace_exits_loudly w (init w workspace) ∅ code Hres).
Qed.

Lemma exit_one_is_logged_witness :
  exit_code w_no_config None = 1 /\
  (logged ERROR (evs (run_script w_no_config None)) \/
   last (evs (run_script w_no_config None)) = Some (Log INFO [Txt "Operation cancelled by user"])).
Proof.
  assert (H : exit_code w_no_config None = 1) by (vm_compute; reflexivity).
  exact (conj H (exit_one_is_logged w_no_config None H)).
Defined.

(** X3. A missing [prepare.sh] is not reported through the exit status:
    the run logs errors and ends with exit status 0. *)
Theorem missing_prepare_exits_zero (w : world) (workspace : option string) :
  exists_ w (prepare_script (init w workspace)) = false ->
  exit_code w workspace = 0 /\
  logs ERROR (evs (run_script w workspace)) =
    [[Txt "prepare.sh not found! This script is required for environment setup."];
     [Txt "Environment check failed!"]].
Proof.
  intros H. unfold exit_code. rewrite run_script_eq. cbn zeta.
  rewrite (setup_workspace_missing w _ ∅ H). split; reflexivity.
Qed.

Lemma missing_prepare_exits_zero_witness :
  exists_ w_bare (prepare_script (init w_bare None)) = false /\
  exit_code w_bare None = 0.
Proof.
  assert (H : exists_ w_bare (prepare_script (init w_bare None)) = false)
    by (vm_compute; reflexivity).
  exact (conj H (proj1 (missing_prepare_exits_zero w_bare None H))).
Defined.

(** ** Interrupts and commands that cannot be started *)

Lemma runs_cons_log lvl msg t : runs (Log lvl msg :: t) = runs t.
Proof. reflexivity. Qed.

(** Neither an interrupt nor a failure to start a command is caught
    inside [setup_workspace]. *)
Lemma setup_workspace_halts w self s bad e :
  (bad = Interrupted /\ e = KeyboardInterrupt) \/ (bad = SpawnFailed /\ e = OSError) ->
  halts_at w bad e (setup_workspace w self s).
Proof.
  intros Hkind.
  destruct (check_environment_cases w self s) as [H | [H | [H _]]].
  2: { rewrite setup_workspace_missing by assumption. intros a c Hin. cbn in Hin.
       apply elem_of_nil in Hin. destruct Hin. }
  2: { rewrite (setup_workspace_refused w self s _ H). intros a c Hin. cbn [evs] in Hin.
       destruct (check_environment_facts w self s) as (_ & Hnone & _).
       rewrite runs_cons_log, Hnone in Hin. apply elem_of_nil in Hin. destruct Hin. }
  destruct (setup_workspace_stages w self s H) as [_ Hstages].
  destruct (check_environment_facts w self s) as (_ & Hruns_c & _).
  set (s1 := fs (check_environment w self s)) in *.
  destruct (read_packages_config_facts w self s1) as (_ & Hruns_r & _).
  assert (Hhead : runs (Log INFO [Txt "Setting up ROS workspace..."]
                        :: evs (check_environment w self s)) = [])
    by (rewrite runs_cons_log; exact Hruns_c).
  intros a c Hin Hbad.
  destruct (res (read_packages_config w self s1)) as [v|e'] eqn:Hr.
  - assert (Hhalt_i : halts_at w bad e (install_official_packages w v s1)).
    { destruct (install_official_packages_facts w v s1) as (_ & _ & _ & _ & Hk & Hs & _).
      destruct Hkind as [[-> ->] | [-> ->]]; assumption. }
    destruct (res (install_official_packages w v s1)) as [b|e''] eqn:Hi.
    + destruct Hstages as [Hevs Hres].
      assert (Hhalt_b : halts_at w bad e (build_ws w self s1)).
      { destruct (build_ws_facts w self s1) as (_ & _ & _ & _ & Hk & Hs & _).
        destruct Hkind as [[-> ->] | [-> ->]]; assumption. }
      assert (Hruns : runs (evs (setup_workspace w self s)) =
                runs (evs (install_official_packages w v s1))
                ++ runs (evs (build_ws w self s1))).
      { rewrite Hevs, !runs_app, Hhead, Hruns_r, runs_closing_messages, app_nil_r.
        reflexivity. }
      rewrite Hruns in Hin |- *. apply elem_of_app in Hin. destruct Hin as [Hin | Hin].
      * destruct (Hhalt_i a c Hin Hbad) as [Hraise _]. congruence.
      * destruct (Hhalt_b a c Hin Hbad) as [Hraise Hlast].
        rewrite Hres, Hraise. split; [reflexivity|].
        rewrite last_app, Hlast. reflexivity.
    + destruct Hstages as [Hres Hevs].
      assert (Hruns : runs (evs (setup_workspace w self s)) =
                runs (evs (install_official_packages w v s1)))
        by (rewrite Hevs, !runs_app, Hhead, Hruns_r; reflexivity).
      rewrite Hruns in Hin |- *.
      destruct (Hhalt_i a c Hin Hbad) as [Hraise Hlast].
      rewrite Hres. split; [congruence | exact Hlast].
  - destruct Hstages as [Hres Hevs].
    rewrite Hevs, runs_app, Hhead, Hruns_r in Hin. apply elem_of_nil in Hin. destruct Hin.
Qed.

(** X4. Whichever subprocess is interrupted from the keyboard, it is the
    last one the run spawns; the run then logs that the operation was
    cancelled, as its last message, and ends with exit status 1. *)
Theorem interrupt_cancels_run (w : world) (workspace : option string)
    (argv : list string) (cwd : option string) :
  (argv, cwd) ∈ runs (evs (run_script w workspace)) ->
  spawn w argv cwd = Interrupted ->
  last (runs (evs (run_script w workspace))) = Some (argv, cwd) /\
  last (evs (run_script w workspace)) = Some (Log INFO [Txt "Operation cancelled by user"]) /\
  exit_code w workspace = 1.
Proof.
  intros Hin Hbad. rewrite run_script_runs in Hin.
  destruct (setup_workspace_halts w (init w workspace) ∅ Interrupted KeyboardInterrupt
              (or_introl (conj eq_refl eq_refl)) argv cwd Hin Hbad) as [Hres Hlast].
  rewrite run_script_runs. split; [exact Hlast|].
  unfold exit_code. rewrite run_script_eq. cbn zeta. rewrite Hres. cbn [evs res].
  split; [apply last_snoc | reflexivity].
Qed.

Lemma interrupt_cancels_run_witness :
  last (runs (evs (run_script w_interrupted None))) = Some (apt_install_ab, None) /\
  exit_code w_interrupted None = 1.
Proof.
  assert (Hin : (apt_install_ab, None) ∈ runs (evs (run_script w_interrupted None))).
  { replace (runs (evs (run_script w_interrupted None)))
      with [(apt_update, @None string); (apt_install_ab, None)] by (vm_compute; reflexivity).
    apply elem_of_cons. right. apply elem_of_cons. left. reflexivity. }
  assert (Hbad : spawn w_interrupted apt_install_ab None = Interrupted)
    by (vm_compute; reflexivity).
  destruct (interrupt_cancels_run w_interrupted None apt_install_ab None Hin Hbad)
    as (Hlast & _ & Hexit).
  exact (conj Hlast Hexit).
Defined.

(** X5. Whichever command cannot be started, it is the last one the run
    spawns: the [OSError] is caught only by [main], which logs it as an
    unexpected error, as its last message, and ends with exit status 1.
    In particular a build step whose [bash] is missing is not treated as
    a failed dependency command. *)
Theorem spawn_failure_aborts_run (w : world) (workspace : option string)
    (argv : list string) (cwd : option string) :
  (argv, cwd) ∈ runs (evs (run_script w workspace)) ->
  spawn w argv cwd = SpawnFailed ->
  last (runs (evs (run_script w workspace))) = Some (argv, cwd) /\
  last (evs (run_script w workspace)) =
    Some (Log ERROR [Txt "Unexpected error: "; Exc OSError]) /\
  exit_code w workspace = 1.
Proof.
  intros Hin Hbad. rewrite run_script_runs in Hin.
  destruct (setup_workspace_halts w (init w workspace) ∅ SpawnFailed OSError
              (or_intror (conj eq_refl eq_refl)) argv cwd Hin Hbad) as [Hres Hlast].
  rewrite run_script_runs. split; [exact Hlast|].
  unfold exit_code. rewrite run_script_eq. cbn zeta. rewrite Hres. cbn [evs res].
  split; [apply last_snoc | reflexivity].
Qed.

Lemma spawn_failure_aborts_run_witness :
  last (runs (evs (run_script w_no_bash None))) = Some (rosdep_update, Some "/ws") /\
  exit_code w_no_bash None = 1.
Proof.
  assert (Hin : (rosdep_update, Some "/ws") ∈ runs (evs (run_script w_no_bash None))).
  { replace (runs (evs (run_script w_no_bash None)))
      with [(apt_update, @None string); (apt_install_ab, None); (rosdep_update, Some "/ws")]
      by (vm_compute; reflexivity).
    do 2 (apply elem_of_cons; right). apply elem_of_cons. left. reflexivity. }
  assert (Hbad : spawn w_no_bash rosdep_update (Some "/ws") = SpawnFailed)
    by (vm_compute; reflexivity).
  destruct (spawn_failure_aborts_run w_no_bash None rosdep_update (Some "/ws") Hin Hbad)
    as (Hlast & _ & Hexit).
  exact (conj Hlast Hexit).
Defined.

(** ** File modes *)


Lemma run_script_chmods w workspace :
  chmods (evs (run_script w workspace)) =
  chmods (evs (check_environment w (init w workspace) ∅)).
Proof.
  assert (Happ : forall t1 t2, chmods (t1 ++ t2) = chmods t1 ++ chmods t2)
    by (intros; apply omap_app).
  assert (Hsetup : chmods (evs (setup_workspace w (init w workspace) ∅))
                   = chmods (evs (check_environment w (init w workspace) ∅))).
  { destruct (check_environment_cases w (init w workspace) ∅) as [H | [H | [H _]]].
    2: { rewrite setup_workspace_missing, check_environment_missing by assumption.
         reflexivity. }
    2: { rewrite (setup_workspace_refused w _ ∅ _ H). reflexivity. }
    destruct (setup_workspace_stages w _ ∅ H) as [_ Hstages].
    set (s1 := fs (check_environment w (init w workspace) ∅)) in *.
    destruct (read_packages_config_facts w (init w workspace) s1) as (_ & _ & Hr & _).
    destruct (res (read_packages_config w (init w workspace) s1)) as [v|e].
    - destruct (install_official_packages_facts w v s1) as (_ & Hi & _).
      destruct (build_ws_facts w (init w workspace) s1) as (_ & Hb & _).
      destruct (res (install_official_packages w v s1)) as [b|e].
      + destruct Hstages as [-> _]. rewrite !Happ, Hr, Hi, Hb.
        destruct (res (build_ws w (init w workspace) s1)); cbn; rewrite app_nil_r; reflexivity.
      + destruct Hstages as [_ ->]. rewrite !Happ, Hr, Hi. cbn. rewrite app_nil_r. reflexivity.
    - destruct Hstages as [_ ->]. rewrite !Happ, Hr. cbn. rewrite app_nil_r. reflexivity. }
  rewrite run_script_eq. cbn zeta.
  destruct (res (setup_workspace w (init w workspace) ∅)) as [v|e]; [exact Hsetup|].
  destruct e; cbn [evs]; rewrite ?Happ, Hsetup; cbn; rewrite ?app_nil_r; reflexivity.
Qed.

(** X6. A run calls [chmod] at most once, and only on [prepare.sh]
    with mode 0o755: it makes that call exactly when [prepare.sh] exists
    and has no execute bit, and no call otherwise. *)
Theorem run_calls_chmod_at_most_once (w : world) (workspace : option string) :
  chmods (evs (run_script w workspace)) =
    (if exists_ w (prepare_script (init w workspace))
        && negb (executable_before w (prepare_script (init w workspace)))
     then [(prepare_script (init w workspace), MODE_755)] else []).
Proof.
  rewrite run_script_chmods.
  destruct (check_environment_facts w (init w workspace) ∅) as (_ & _ & _ & _ & Hch & _).
  unfold executable_before. rewrite negb_involutive. exact Hch.
Qed.



(** X8. The environment check is idempotent: when it returns, a second
    call on the file system it left returns the same result, calls no
    [chmod] and leaves the file system as it found it. *)
Theorem check_environment_idempotent (w : world) (self : ROSWorkspaceManager) (s : modes)
    (b : bool) :
  res (check_environment w self s) = Ret b ->
  res (check_environment w self (fs (check_environment w self s))) = Ret b /\
  chmods (evs (check_environment w self (fs (check_environment w self s)))) = [] /\
  fs (check_environment w self (fs (check_environment w self s)))
    = fs (check_environment w self s).
Proof.
  intros Hb.
  destruct (check_environment_facts w self s) as (Hres & _ & _ & _ & _ & Hmode).
  set (s1 := fs (check_environment w self s)) in *.
  destruct (exists_ w (prepare_script self)) eqn:Hex.
  2: { rewrite Hres in Hb. injection Hb as <-.
       rewrite check_environment_missing by assumption. done. }
  cbn [andb] in *.
  assert (Hexec : (Z.land (mode_of w s1 (prepare_script self)) S_IXUGO =? 0) = false).
  { apply Z.eqb_neq. rewrite Hmode.
    destruct (Z.land (mode_of w s (prepare_script self)) S_IXUGO =? 0) eqn:Hx; cbn [andb] in *.
    - destruct (may_chmod w (prepare_script self)); cbn in *.
      + apply chmod_mode_executable.
      + rewrite Hres in Hb. discriminate.
    - apply Z.eqb_neq. exact Hx. }
  assert (Hb' : b = true).
  { rewrite Hres in Hb. destruct (_ && _); [discriminate|]. injection Hb as <-. reflexivity. }
  subst b. clear Hres Hmode Hb.
  unfold check_environment, path_exists, path_stat, path_chmod, bind, emit, ret, logger.
  cbn [pre]. rewrite Hex. cbn. rewrite Hexec.
  destruct (exists_ w (env_file self)); done.
Qed.

Lemma check_environment_idempotent_witness :
  chmods (evs (check_environment w_not_exec (init w_not_exec None) ∅))
    = [("/ws/prepare.sh", MODE_755)] /\
  chmods (evs (check_environment w_not_exec (init w_not_exec None)
                 (fs (check_environment w_not_exec (init w_not_exec None) ∅)))) = [].
Proof.
  split; [vm_compute; reflexivity|].
  apply (check_environment_idempotent w_not_exec (init w_not_exec None) ∅ true).
  vm_compute. reflexivity.
Defined.

(** ** What the steps return *)

(** X9. The value [setup_workspace] returns tells only whether
    [prepare.sh] was found: it is [False] when the script is missing and
    [None] otherwise.  It is never [True], and never [False] on account of
    the installer or the build step. *)
Theorem setup_workspace_result (w : world) (self : ROSWorkspaceManager) (s : modes)
    (v : option bool) :
  res (setup_workspace w self s) = Ret v ->
  v = if exists_ w (prepare_script self) then None else Some false.
Proof.
  destruct (check_environment_cases w self s) as [H | [H | [H _]]].
  2: { rewrite setup_workspace_missing, H by assumption. intros [= <-]. reflexivity. }
  2: { rewrite (setup_workspace_refused w self s _ H). discriminate. }
  assert (Hex : exists_ w (prepare_script self) = true)
    by (apply (check_environment_passes_iff w self s), H).
  rewrite Hex.
  destruct (setup_workspace_stages w self s H) as [_ Hstages].
  destruct (res (read_packages_config w self _)) as [pkgs|e].
  - destruct (res (install_official_packages w pkgs _)) as [b|e].
    + destruct Hstages as [_ ->].
      destruct (res (build_ws w self _)); [intros [= <-]; reflexivity | discriminate].
    + destruct Hstages as [-> _]. discriminate.
  - destruct Hstages as [-> _]. discriminate.
Qed.

Lemma setup_workspace_result_witness :
  res (setup_workspace w_apt_fails (init w_apt_fails None) ∅) = Ret None /\
  None = (if exists_ w_apt_fails (prepare_script (init w_apt_fails None))
          then None else Some false).
Proof.
  assert (H : res (setup_workspace w_apt_fails (init w_apt_fails None) ∅) = Ret None)
    by (vm_compute; reflexivity).
  exact (conj H (setup_workspace_result w_apt_fails (init w_apt_fails None) ∅ None H)).
Defined.

(** X10. Whenever [build_ws] returns, its result is [True] exactly when
    [colcon build] returned status 0: a failed dependency command never
    turns it into [False]. *)
Theorem build_ws_follows_colcon (w : world) (self : ROSWorkspaceManager) (s : modes)
    (b : bool) :
  res (build_ws w self s) = Ret b ->
  exists status,
    spawn w colcon_build (Some (workspace_dir self)) = Exited status /\
    b = (status =? 0).
Proof.
  unfold build_ws, try_except, bind, logger, emit, subprocess_run.
  cbn [pre]. spawn_cases; intros Hb; try discriminate Hb; injection Hb as <-;
    eexists; (split; [reflexivity|]); symmetry; assumption.
Qed.

Lemma build_ws_follows_colcon_witness :
  spawn w_rosdep_fails rosdep_update (Some "/ws") = Exited 1 /\
  res (build_ws w_rosdep_fails (init w_rosdep_fails None) ∅) = Ret true /\
  exists status,
    spawn w_rosdep_fails colcon_build (Some "/ws") = Exited status /\ true = (status =? 0).
Proof.
  assert (H : res (build_ws w_rosdep_fails (init w_rosdep_fails None) ∅) = Ret true)
    by (vm_compute; reflexivity).
  split; [vm_compute; reflexivity|]. split; [exact H|].
  exact (build_ws_follows_colcon w_rosdep_fails (init w_rosdep_fails None) ∅ true H).
Defined.

(** X11. For a list of package names, [install_official_packages]
    returns [True] exactly when the list is empty or both [apt update]
    and the install command returned status 0. *)
Theorem install_official_packages_succeeds_iff (w : world) (pkgs : list string) (s : modes) :
  res (install_official_packages w (YSeq (map YStr pkgs)) s) = Ret true <->
  pkgs = [] \/
  (spawn w apt_update None = Exited 0 /\ spawn w (apt_install ++ pkgs) None = Exited 0).
Proof.
  destruct pkgs as [|x pkgs].
  { rewrite install_official_packages_nothing by reflexivity. simpl. tauto. }
  split.
  - intros Hres. right. revert Hres.
    unfold install_official_packages.
    cbn [py_truthy py_len length negb Nat.eqb map install_cmd].
    unfold try_except, bind, logger, emit, subprocess_run_values, subprocess_run.
    cbn [pre].
    destruct (spawn w apt_update None) as [c| |] eqn:Hupd;
      [destruct (c =? 0) eqn:Hc|..]; cbn; try discriminate.
    apply Z.eqb_eq in Hc. subst c.
    rewrite py_argv_strings. cbn.
    change ("sudo" :: "apt" :: "install" :: "-y" :: x :: pkgs)
      with (apt_install ++ x :: pkgs).
    destruct (spawn w (apt_install ++ x :: pkgs) None) as [c| |] eqn:Hinst;
      [destruct (c =? 0) eqn:Hc|..]; cbn; try discriminate.
    apply Z.eqb_eq in Hc. subst c. intros _. split; reflexivity.
  - intros [Hnil | [Hupd Hinst]]; [discriminate Hnil|].
    destruct (install_official_packages_strings w (x :: pkgs) s) as (_ & _ & _ & Hres);
      [discriminate | assumption |].
    apply (Hres 0 Hinst).
Qed.

(** X12. The package names reach the package manager unmodified: for
    every non-empty list of names in the configuration of a workspace that
    passes the environment check, when [apt update] returns status 0 the
    package manager is invoked exactly twice, for the update and then for
    one install command carrying all the names in the order of the
    configuration. *)
Theorem names_are_passed_through (w : world) (workspace : option string)
    (pkgs : list string) :
  passes_check w (init w workspace) ->
  config_lists w (init w workspace) pkgs ->
  pkgs <> [] ->
  spawn w apt_update None = Exited 0 ->
  installs_once pkgs (evs (run_script w workspace)).
Proof.
  intros Hprep Hcfg Hne Hupd. unfold installs_once.
  rewrite run_script_apt_runs.
  rewrite (setup_workspace_apt_runs w _ ∅ _ _ Hprep (config_lists_read w _ _ Hcfg))
    by reflexivity.
  apply (install_official_packages_strings w pkgs); assumption.
Qed.

Lemma names_are_passed_through_witness :
  installs_once ["a"; "b"] (evs (run_script w_rosdep_fails None)).
Proof.
  apply (names_are_passed_through w_rosdep_fails None).
  - vm_compute. reflexivity.
  - split; [vm_compute; reflexivity|].
    eexists. split; [reflexivity|]. vm_compute. reflexivity.
  - discriminate.
  - vm_compute. reflexivity.
Defined.

(** ** Which configurations are accepted *)

Lemma read_packages_config_returns_iff w self s :
  (exists v, res (read_packages_config w self s) = Ret v) <->
  exists_ w (packages_file self) = true /\ accepts (load w (packages_file self)) = true.
Proof.
  unfold accepts.
  unfold read_packages_config, path_exists, try_except, bind, emit, ret, logger.
  cbn [pre]. destruct (exists_ w (packages_file self)); cbn.
  2: { split; [intros [v [=]] | intros [[=] _]]. }
  destruct (load w (packages_file self)) as [config| |]; cbn.
  2,3: split; [intros [v [=]] | intros [_ [=]]].
  destruct (py_get config "official-packages" (YSeq [])) as [v|]; cbn.
  2: { split; [intros [v [=]] | intros [_ [=]]]. }
  destruct (py_len v) as [n|]; cbn.
  2: { split; [intros [v' [=]] | intros [_ [=]]]. }
  split; [intros _; split; reflexivity | intros _; eexists; reflexivity].
Qed.

Lemma install_official_packages_starts_with_update w v s n :
  py_truthy v = true ->
  py_len v = Some n ->
  exists rest,
    runs (evs (install_official_packages w v s)) = (apt_update, None) :: rest.
Proof.
  intros Ht Hl.
  unfold install_official_packages, try_except, bind, logger, emit,
    subprocess_run_values, subprocess_run.
  rewrite Ht, Hl. cbn.
  destruct (spawn w apt_update None) as [c| |]; [destruct (c =? 0)|..]; cbn;
    try (eexists; reflexivity).
  destruct (install_cmd v) as [cmd|]; cbn; [|eexists; reflexivity].
  destruct (py_argv cmd) as [argv|]; cbn; [|eexists; reflexivity].
  destruct (spawn w argv None) as [c'| |]; [destruct (c' =? 0)|..]; cbn;
    eexists; reflexivity.
Qed.

(** X13. In a workspace that passes the environment check, a run is
    fatal before any subprocess (exit status 1, an error logged, nothing
    spawned) exactly when [ros-config.yml] is missing or is not accepted.
    Accepted means only that it loads as a mapping whose
    [official-packages] entry has a length: an empty file, a top-level
    list, and an entry that is null or a number are all fatal, while a
    string or a mapping in place of the list is let through. *)
Theorem fatal_preflight_iff_not_accepted (w : world) (workspace : option string) :
  passes_check w (init w workspace) ->
  fatal_preflight (run_script w workspace) <->
  exists_ w (packages_file (init w workspace)) = false \/
  accepts (load w (packages_file (init w workspace))) = false.
Proof.
  intros Hprep.
  destruct (setup_workspace_stages w _ ∅ Hprep) as [_ Hstages].
  destruct (check_environment_facts w (init w workspace) ∅) as (_ & Hruns_c & _).
  set (s1 := fs (check_environment w (init w workspace) ∅)) in *.
  destruct (read_packages_config_facts w (init w workspace) s1) as (_ & Hruns_r & _ & Hloud & Hexit & Hlen).
  pose proof (read_packages_config_returns_iff w (init w workspace) s1) as Hiff.
  destruct (res (read_packages_config w (init w workspace) s1)) as [v|e] eqn:Hr.
  - (* accepted: something is spawned *)
    assert (Hacc : exists_ w (packages_file (init w workspace)) = true /\
                   accepts (load w (packages_file (init w workspace))) = true)
      by (apply Hiff; eexists; reflexivity).
    destruct Hacc as [Hex Hacc]. split; [|intros [? | ?]; congruence].
    intros (_ & _ & Hnone). exfalso.
    rewrite run_script_runs in Hnone.
    specialize (Hlen v eq_refl).
    destruct (py_len v) as [n|] eqn:Hn; [|congruence].
    destruct (py_truthy v) eqn:Ht.
    + destruct (install_official_packages_starts_with_update w v s1 n Ht Hn) as [rest Hi].
      destruct (res (install_official_packages w v s1)).
      * destruct Hstages as [Hevs _]. rewrite Hevs, !runs_app, Hi in Hnone.
        rewrite runs_cons_log, Hruns_c, Hruns_r in Hnone. discriminate.
      * destruct Hstages as [_ Hevs]. rewrite Hevs, !runs_app, Hi in Hnone.
        rewrite runs_cons_log, Hruns_c, Hruns_r in Hnone. discriminate.
    + rewrite (install_official_packages_nothing w v s1 Ht) in Hstages.
      cbn [res evs] in Hstages. destruct Hstages as [Hevs _].
      destruct (build_ws_first_run w (init w workspace) s1) as [rest Hb].
      rewrite Hevs, !runs_app, Hb in Hnone.
      rewrite runs_cons_log, Hruns_c, Hruns_r in Hnone. discriminate.
  - (* not accepted: the run ends in [read_packages_config] *)
    destruct Hstages as [Hres Hevs]. pose proof (Hexit e eq_refl) as ->.
    split.
    + intros _.
      destruct (exists_ w (packages_file (init w workspace))) eqn:Hex; [|left; reflexivity].
      destruct (accepts (load w (packages_file (init w workspace)))) eqn:Hacc; [|right; reflexivity].
      destruct (proj2 Hiff (conj eq_refl eq_refl)) as [v [=]].
    + intros _. unfold fatal_preflight. rewrite run_script_eq. cbn zeta.
      rewrite Hres. cbn [res evs]. rewrite Hevs.
      split; [reflexivity|]. split.
      * apply logged_app_r. apply (Hloud 1 Hr).
      * rewrite runs_app, runs_cons_log, Hruns_c, Hruns_r. reflexivity.
Qed.

Lemma fatal_preflight_iff_not_accepted_witness :
  accepts (load w_empty_file (packages_file (init w_empty_file None))) = false /\
  fatal_preflight (run_script w_empty_file None) /\
  accepts (load w_scalar_packages (packages_file (init w_scalar_packages None))) = true /\
  ~ fatal_preflight (run_script w_scalar_packages None).
Proof.
  assert (H1 : passes_check w_empty_file (init w_empty_file None))
    by (vm_compute; reflexivity).
  assert (H2 : passes_check w_scalar_packages (init w_scalar_packages None))
    by (vm_compute; reflexivity).
  assert (Hno : accepts (load w_empty_file (packages_file (init w_empty_file None))) = false)
    by (vm_compute; reflexivity).
  assert (Hyes : accepts (load w_scalar_packages
                            (packages_file (init w_scalar_packages None))) = true)
    by (vm_compute; reflexivity).
  split; [exact Hno|].
  split; [apply (fatal_preflight_iff_not_accepted w_empty_file None H1); right; exact Hno|].
  split; [exact Hyes|].
  intros Hfatal.
  apply (fatal_preflight_iff_not_accepted w_scalar_packages None H2) in Hfatal.
  destruct Hfatal as [Hex | Hacc]; [vm_compute in Hex; discriminate | congruence].
Defined.

Lemma install_official_packages_type_error w v s n :
  py_truthy v = true ->
  py_len v = Some n ->
  strings_of v = None ->
  spawn w apt_update None = Exited 0 ->
  install_official_packages w v s =
    Outcome (Raise TypeError)
      [Log INFO [Txt "Installing "; Num n; Txt " official packages..."];
       Run apt_update None]
      s.
Proof.
  intros Ht Hl Hs Hupd.
  unfold install_official_packages, try_except, bind, logger, emit,
    subprocess_run_values, subprocess_run.
  rewrite Ht, Hl. cbn. rewrite Hupd. cbn.
  destruct v; cbn in *; try reflexivity.
  rewrite Hs. reflexivity.
Qed.

(** X14. In a workspace that passes the environment check, an accepted
    configuration whose [official-packages] entry is not a list of strings
    (a bare string, a list with a number in it) is detected only after
    [apt update] has run: when that update returns
    status 0, the [TypeError] of building or spawning the install command
    is caught by [main] alone, so the update is the only subprocess of the
    run, no build is attempted, and the exit status is 1. *)
Theorem bad_package_list_aborts_after_update (w : world) (workspace : option string)
    (m : gmap string yaml) (v : yaml) (n : nat) :
  passes_check w (init w workspace) ->
  exists_ w (packages_file (init w workspace)) = true ->
  load w (packages_file (init w workspace)) = Parsed (YMap m) ->
  m !! "official-packages" = Some v ->
  py_truthy v = true ->
  py_len v = Some n ->
  strings_of v = None ->
  spawn w apt_update None = Exited 0 ->
  runs (evs (run_script w workspace)) = [(apt_update, None)] /\
  last (evs (run_script w workspace)) =
    Some (Log ERROR [Txt "Unexpected error: "; Exc TypeError]) /\
  exit_code w workspace = 1.
Proof.
  intros Hprep Hex Hload Hm Ht Hl Hs Hupd.
  destruct (setup_workspace_stages w _ ∅ Hprep) as [_ Hstages].
  destruct (check_environment_facts w (init w workspace) ∅) as (_ & Hruns_c & _).
  set (s1 := fs (check_environment w (init w workspace) ∅)) in *.
  rewrite (read_packages_config_loaded w _ s1 (YMap m) v n Hex Hload) in Hstages
    by (simpl; rewrite ?Hm; done).
  cbn [res evs] in Hstages.
  rewrite (install_official_packages_type_error w v s1 n Ht Hl Hs Hupd) in Hstages.
  cbn [res evs] in Hstages. destruct Hstages as [Hres Hevs].
  rewrite run_script_runs. unfold exit_code. rewrite run_script_eq. cbn zeta.
  rewrite Hres. cbn [res evs]. rewrite Hevs.
  split; [|split; [apply last_snoc | reflexivity]].
  rewrite !runs_app, runs_cons_log, Hruns_c. reflexivity.
Qed.

Lemma bad_package_list_aborts_after_update_witness :
  runs (evs (run_script w_scalar_packages None)) = [(apt_update, None)] /\
  exit_code w_scalar_packages None = 1 /\
  runs (evs (run_script w_number_in_list None)) = [(apt_update, None)] /\
  exit_code w_number_in_list None = 1.
Proof.
  assert (Hm1 : ({[ "official-packages" := YStr "ros-humble-desktop" ]} : gmap string yaml)
                  !! "official-packages" = Some (YStr "ros-humble-desktop"))
    by (vm_compute; reflexivity).
  assert (Hm2 : ({[ "official-packages" := YSeq [YStr "a"; YInt 3] ]} : gmap string yaml)
                  !! "official-packages" = Some (YSeq [YStr "a"; YInt 3]))
    by (vm_compute; reflexivity).
  destruct (bad_package_list_aborts_after_update w_scalar_packages None _ _ 18%nat
              ltac:(vm_compute; reflexivity) ltac:(vm_compute; reflexivity)
              eq_refl Hm1 eq_refl eq_refl eq_refl eq_refl) as (Hr1 & _ & He1).
  destruct (bad_package_list_aborts_after_update w_number_in_list None _ _ 2%nat
              ltac:(vm_compute; reflexivity) ltac:(vm_compute; reflexivity)
              eq_refl Hm2 eq_refl eq_refl eq_refl eq_refl) as (Hr2 & _ & He2).
  exact (conj Hr1 (conj He1 (conj Hr2 He2))).
Defined.

(** ** A run in which everything succeeds *)

Lemma install_official_packages_success w (pkgs : list string) s :
  pkgs <> [] ->
  spawn w apt_update None = Exited 0 ->
  spawn w (apt_install ++ pkgs) None = Exited 0 ->
  install_official_packages w (YSeq (map YStr pkgs)) s =
    Outcome (Ret true)
      [Log INFO [Txt "Installing "; Num (length pkgs); Txt " official packages..."];
       Run apt_update None;
       Run (apt_install ++ pkgs) None;
       Log INFO [Txt "Official packages installed successfully"]]
      s.
Proof.
  intros Hne Hupd Hinst. destruct pkgs as [|x pkgs]; [congruence|].
  unfold install_official_packages.
  cbn [py_truthy py_len length negb Nat.eqb map install_cmd].
  unfold try_except, bind, logger, emit, subprocess_run_values, subprocess_run.
  cbn [pre]. rewrite Hupd. cbn. rewrite py_argv_strings. cbn.
  change ("sudo" :: "apt" :: "install" :: "-y" :: x :: pkgs)
    with (apt_install ++ x :: pkgs).
  rewrite Hinst, length_map. reflexivity.
Qed.

Lemma build_ws_success w self s :
  spawn w rosdep_update (Some (workspace_dir self)) = Exited 0 ->
  spawn w rosdep_install (Some (workspace_dir self)) = Exited 0 ->
  spawn w colcon_build (Some (workspace_dir self)) = Exited 0 ->
  build_ws w self s =
    Outcome (Ret true)
      [Log INFO [Txt "Installing workspace dependencies..."];
       Run rosdep_update (Some (workspace_dir self));
       Run rosdep_install (Some (workspace_dir self));
       Log INFO [Txt "Dependencies installed successfully"];
       Log INFO [Txt "Building ROS workspace..."];
       Run colcon_build (Some (workspace_dir self));
       Log INFO [Txt "Workspace built successfully"]]
      s.
Proof.
  intros H1 H2 H3.
  unfold build_ws, try_except, bind, logger, emit, subprocess_run.
  cbn [pre]. rewrite H1, H2, H3. reflexivity.
Qed.

(** X15. When the environment check passes, the configuration lists
    package names and every command the run spawns returns status 0, the
    run spawns, in this order, the update and the install of the packages
    (neither when the list is empty), then [rosdep update],
    [rosdep install] and [colcon build]; it logs no error, ends on the
    hint to source [prepare.sh] and exits with status 0. *)
Theorem all_green_run (w : world) (workspace : option string) (pkgs : list string) :
  passes_check w (init w workspace) ->
  config_lists w (init w workspace) pkgs ->
  spawn w apt_update None = Exited 0 ->
  spawn w (apt_install ++ pkgs) None = Exited 0 ->
  spawn w rosdep_update (Some (workspace_dir (init w workspace))) = Exited 0 ->
  spawn w rosdep_install (Some (workspace_dir (init w workspace))) = Exited 0 ->
  spawn w colcon_build (Some (workspace_dir (init w workspace))) = Exited 0 ->
  runs (evs (run_script w workspace)) =
    match pkgs with
    | [] => []
    | _ :: _ => [(apt_update, None); (apt_install ++ pkgs, None)]
    end
    ++ [(rosdep_update, Some (workspace_dir (init w workspace)));
        (rosdep_install, Some (workspace_dir (init w workspace)));
        (colcon_build, Some (workspace_dir (init w workspace)))] /\
  logs ERROR (evs (run_script w workspace)) = [] /\
  last (evs (run_script w workspace)) =
    Some (Log INFO [Txt "To use the workspace, run: source prepare.sh"]) /\
  exit_code w workspace = 0.
Proof.
  intros Hprep Hcfg Hupd Hinst H1 H2 H3.
  destruct (setup_workspace_stages w _ ∅ Hprep) as [_ Hstages].
  destruct (check_environment_found w (init w workspace) ∅ Hprep) as (_ & Hruns_c & _ & Herr_c).
  set (s1 := fs (check_environment w (init w workspace) ∅)) in *.
  rewrite (config_lists_read w _ _ Hcfg s1) in Hstages. cbn [res evs] in Hstages.
  rewrite (build_ws_success w _ s1 H1 H2 H3) in Hstages.
  assert (Hi : exists t,
            install_official_packages w (YSeq (map YStr pkgs)) s1 = Outcome (Ret true) t s1 /\
            logs ERROR t = [] /\
            runs t = match pkgs with
                     | [] => []
                     | _ :: _ => [(apt_update, None); (apt_install ++ pkgs, None)]
                     end).
  { destruct pkgs as [|x pkgs].
    - eexists. split; [apply install_official_packages_nothing; reflexivity|].
      split; reflexivity.
    - eexists. split; [apply install_official_packages_success; done|].
      split; reflexivity. }
  destruct Hi as (t & Hi & Herr_i & Hruns_i).
  rewrite Hi in Hstages. cbn [res evs] in Hstages. destruct Hstages as [Hevs Hres].
  rewrite run_script_runs. unfold exit_code. rewrite run_script_eq. cbn zeta.
  rewrite Hres. cbn [res evs]. rewrite Hevs.
  split; [|split; [|split]].
  - rewrite !runs_app, runs_cons_log, Hruns_c, Hruns_i. reflexivity.
  - rewrite !logs_app, Herr_i.
    change (logs ERROR (Log INFO [Txt "Setting up ROS workspace..."]
                        :: evs (check_environment w (init w workspace) ∅)))
      with (logs ERROR (evs (check_environment w (init w workspace) ∅))).
    rewrite Herr_c. reflexivity.
  - rewrite !last_app. reflexivity.
  - reflexivity.
Qed.

Lemma all_green_run_witness :
  runs (evs (run_script w_healthy None)) =
    [(apt_update, None); (apt_install_ab, None); (rosdep_update, Some "/ws");
     (rosdep_install, Some "/ws"); (colcon_build, Some "/ws")] /\
  exit_code w_healthy None = 0.
Proof.
  assert (Hcfg : config_lists w_healthy (init w_healthy None) ["a"; "b"]).
  { split; [vm_compute; reflexivity|].
    eexists. split; [reflexivity|]. vm_compute. reflexivity. }
  destruct (all_green_run w_healthy None ["a"; "b"]
              ltac:(vm_compute; reflexivity) Hcfg eq_refl eq_refl eq_refl eq_refl eq_refl)
    as (Hruns & _ & _ & Hexit).
  exact (conj Hruns Hexit).
Defined.

(** ** What is spawned, and where *)

(** X16. Every subprocess of every run is either a [sudo apt] command,
    started in the directory the script was started in, or a [bash -c]
    command line that sources [prepare.sh] first, started in the workspace
    directory; and a run spawns at most five subprocesses. *)
Theorem commands_are_apt_or_sourced (w : world) (workspace : option string) :
  Forall (fun r => (r.2 = None /\ is_apt r.1 = true) \/
                   (r.2 = Some (workspace_dir (init w workspace)) /\
                    sources_prepare r.1 = true))
    (runs (evs (run_script w workspace))) /\
  (length (runs (evs (run_script w workspace))) <= 5)%nat.
Proof.
  rewrite run_script_runs.
  destruct (check_environment_cases w (init w workspace) ∅) as [Hprep | [Hprep | [Hprep _]]].
  2: { rewrite setup_workspace_missing by assumption. cbn. split; [constructor | lia]. }
  2: { rewrite (setup_workspace_refused w _ ∅ _ Hprep). cbn [evs].
       destruct (check_environment_facts w (init w workspace) ∅) as (_ & Hnone & _).
       rewrite runs_cons_log, Hnone. cbn. split; [constructor | lia]. }
  destruct (setup_workspace_stages w _ ∅ Hprep) as [_ Hstages].
  destruct (check_environment_facts w (init w workspace) ∅) as (_ & Hruns_c & _).
  set (s1 := fs (check_environment w (init w workspace) ∅)) in *.
  destruct (read_packages_config_facts w (init w workspace) s1) as (_ & Hruns_r & _).
  destruct (build_ws_facts w (init w workspace) s1)
    as (_ & _ & _ & _ & _ & _ & Hall_b & Hlen_b).
  destruct (res (read_packages_config w (init w workspace) s1)) as [v|e].
  - destruct (install_official_packages_facts w v s1)
      as (_ & _ & _ & _ & _ & _ & Hall_i & Hlen_i).
    assert (Hi : Forall (fun r => (r.2 = None /\ is_apt r.1 = true) \/
                   (r.2 = Some (workspace_dir (init w workspace)) /\
                    sources_prepare r.1 = true))
                   (runs (evs (install_official_packages w v s1))))
      by (eapply Forall_impl; [exact Hall_i | intros r Hr; left; exact Hr]).
    assert (Hb : Forall (fun r => (r.2 = None /\ is_apt r.1 = true) \/
                   (r.2 = Some (workspace_dir (init w workspace)) /\
                    sources_prepare r.1 = true))
                   (runs (evs (build_ws w (init w workspace) s1))))
      by (eapply Forall_impl; [exact Hall_b | intros r Hr; right; exact Hr]).
    destruct (res (install_official_packages w v s1)).
    + destruct Hstages as [-> _].
      rewrite !runs_app, runs_cons_log, Hruns_c, Hruns_r, runs_closing_messages, app_nil_r.
      cbn [app]. split; [apply Forall_app; split; assumption|].
      rewrite length_app. lia.
    + destruct Hstages as [_ ->].
      rewrite !runs_app, runs_cons_log, Hruns_c, Hruns_r. cbn [app].
      split; [assumption | lia].
  - destruct Hstages as [_ ->].
    rewrite !runs_app, runs_cons_log, Hruns_c, Hruns_r. cbn. split; [constructor | lia].
Qed.

(** X17. The exit status does not depend on the status of any command:
    when the environment check passes and the configuration lists package
    names, a run in which all five commands run to their end exits with
    status 0, whichever of them failed. *)
Theorem exit_status_ignores_command_failures (w : world) (workspace : option string)
    (pkgs : list string) :
  passes_check w (init w workspace) ->
  config_lists w (init w workspace) pkgs ->
  exits w apt_update None ->
  exits w (apt_install ++ pkgs) None ->
  exits w rosdep_update (Some (workspace_dir (init w workspace))) ->
  exits w rosdep_install (Some (workspace_dir (init w workspace))) ->
  exits w colcon_build (Some (workspace_dir (init w workspace))) ->
  exit_code w workspace = 0.
Proof.
  intros Hprep Hcfg Hupd Hinst Hsync Hdeps [status Hbuild].
  pose proof (config_lists_read w _ _ Hcfg) as Hread.
  destruct (install_official_packages_returns w pkgs
              (fs (check_environment w (init w workspace) ∅)) Hupd Hinst) as [[b Hb] Hfs].
  destruct (setup_workspace_loaded w _ ∅ _ _ b Hprep Hread (conj Hb Hfs)) as [_ Hres].
  rewrite (build_ws_result w _ _ status Hsync Hdeps Hbuild) in Hres.
  rewrite exit_code_eq, Hres. reflexivity.
Qed.

Lemma exit_status_ignores_command_failures_witness :
  spawn w_apt_fails apt_update None = Exited 100 /\
  exit_code w_apt_fails None = 0.
Proof.
  split; [vm_compute; reflexivity|].
  assert (Hcfg : config_lists w_apt_fails (init w_apt_fails None) ["a"; "b"]).
  { split; [vm_compute; reflexivity|].
    eexists. split; [reflexivity|]. vm_compute. reflexivity. }
  assert (Hexits : forall argv cwd, exits w_apt_fails argv cwd)
    by (intros argv cwd; eexists; reflexivity).
  apply (exit_status_ignores_command_failures w_apt_fails None ["a"; "b"]
           ltac:(vm_compute; reflexivity) Hcfg
           (Hexits _ _) (Hexits _ _) (Hexits _ _) (Hexits _ _) (Hexits _ _)).
Defined.
